(** * ecl::generic_bus — a model of dev/bus/export/dev/bus.hpp

    The class template [generic_bus<Bus>] serialises access to a platform
    bus (I2C, SPI, ...) and relays its interrupt-driven events.  The model
    below follows the header member by member:

    - the status byte [m_state] is kept as an integer with the C++ bit
      operations written out ([Z.land], [Z.lor], [Z.lnot], truncation to
      eight bits);
    - the platform bus is the template parameter, here a type class;
    - every member function is a computation in a small monad whose
      outcomes are: normal return, a fatal fault ([ecl_assert], call of an
      empty [std::function]) or a caller blocked for ever;
    - events of the platform bus reach [bus_handler] either as a step of
      their own between two calls, or while the caller sleeps on the
      semaphore; a user handler only leaves a trace of its invocation. *)

From Stdlib Require Import ZArith List Bool Lia.
Import ListNotations.
Open Scope Z_scope.

Set Implicit Arguments.

(** ** Collaborators that live outside bus.hpp *)

(** Modelled from the spec: ecl/err.hpp is not part of the sources.  The
    header uses the enumerators [err::ok], [err::inval], [err::again] and
    [err::busy]; every other value of the enumeration is an opaque code
    coming from the platform bus. *)
Inductive err : Type :=
| ok
| inval
| again
| busy
| other (code : Z).

(** A buffer address; [None] is the null pointer. *)
Definition ptr : Type := option N.

(** [!p] for a pointer [p]. *)
Definition is_null (p : ptr) : bool :=
  match p with
  | None => true
  | Some _ => false
  end.

(** The template parameter [Bus]: the platform-level driver.  Its state is
    threaded explicitly; [Bus_set_tx_fill] is the [set_tx(size, fill_byte)]
    overload. *)
Class PlatformBus (B event : Type) : Type := {
  Bus_xfer_done : event;
  Bus_event_eq_dec : forall a b : event, {a = b} + {a <> b};
  Bus_set_handler : B -> B;
  Bus_init : B -> err * B;
  Bus_reset_buffers : B -> B;
  Bus_set_tx : ptr -> N -> B -> B;
  Bus_set_rx : ptr -> N -> B -> B;
  Bus_set_tx_fill : N -> Z -> B -> B;
  Bus_do_xfer : B -> err * B
}.

(** ** Status flags *)

Definition bus_inited : Z := 1.
Definition async_mode : Z := 2.
Definition bus_locked : Z := 4.
Definition xfer_served : Z := 8.

(** Conversion of an [int] result back to [uint8_t]. *)
Definition uint8 (z : Z) : Z := z mod 256.

(** [m_state & f] in a boolean context. *)
Definition flag_test (st f : Z) : bool := negb (Z.land st f =? 0).

(** [m_state |= f]. *)
Definition flag_set (st f : Z) : Z := uint8 (Z.lor st f).

(** [m_state &= ~(f)]: the operand is promoted to [int] before [~]. *)
Definition flag_clear (st f : Z) : Z := uint8 (Z.land st (Z.lnot f)).

(** ** The monad of member functions *)

Inductive fault : Type :=
| assert_failed       (* ecl_assert on a false condition *)
| bad_function_call.  (* call through an empty std::function *)

(** What a call does to a state of type [S]: it returns a value and a new
    state, it aborts on a fatal fault, or the caller blocks for ever. *)
Inductive outcome (S A : Type) : Type :=
| Ret (a : A) (s : S)
| Fault (f : fault)
| Blocked.

Arguments Ret {S A} a s.
Arguments Fault {S A} f.
Arguments Blocked {S A}.

Definition prog (S A : Type) : Type := S -> outcome S A.

Definition ret {S A} (a : A) : prog S A := fun s => Ret a s.

Definition bind {S A C} (m : prog S A) (k : A -> prog S C) : prog S C :=
  fun s => match m s with
           | Ret a s' => k a s'
           | Fault f => Fault f
           | Blocked => Blocked
           end.

Declare Scope prog_scope.
Delimit Scope prog_scope with prog.
Notation "x <- m ;; k" := (bind m (fun x => k))
  (at level 61, m at next level, right associativity) : prog_scope.
Notation "m ;; k" := (bind m (fun _ => k))
  (at level 61, right associativity) : prog_scope.
Open Scope prog_scope.

Definition when {S} (b : bool) (m : prog S unit) : prog S unit :=
  if b then m else ret tt.

Section GenericBus.

(** [H] is the type of the callable objects a user can wrap into a
    [handler_fn]. *)
Context {B event H : Type} {PB : PlatformBus B event}.

(** [is_ok] and [is_error] come from ecl/err.hpp; they are left abstract. *)
Variable is_ok : err -> bool.
Variable is_error : err -> bool.

(** The data members of [generic_bus].  [m_lock] is true while the mutex
    is held, [m_complete] is true while the binary semaphore holds a
    signal, [m_handler] is [None] for an empty [std::function], and
    [m_cleaned] is the value of the atomic flag. *)
Record generic_bus : Type := mk_generic_bus {
  m_bus : B;
  m_lock : bool;
  m_complete : bool;
  m_handler : option H;
  m_cleaned : bool;
  m_state : Z
}.

(** The object together with its surroundings: [irqs] are the events the
    platform bus raises, in order, while the calling thread sleeps on the
    semaphore; [invoked] records the calls made to user handlers, most
    recent first. *)
Record system : Type := mk_system {
  dev : generic_bus;
  irqs : list event;
  invoked : list (H * event)
}.

(** The constructor: every member value-initialised, flag clear, state 0. *)
Definition generic_bus_new (b0 : B) : generic_bus :=
  mk_generic_bus b0 false false None false 0.

Definition with_dev (f : generic_bus -> generic_bus) (s : system) : system :=
  mk_system (f (dev s)) (irqs s) (invoked s).

Definition with_bus (f : B -> B) (d : generic_bus) : generic_bus :=
  mk_generic_bus (f (m_bus d)) (m_lock d) (m_complete d) (m_handler d)
                 (m_cleaned d) (m_state d).

Definition with_lock (v : bool) (d : generic_bus) : generic_bus :=
  mk_generic_bus (m_bus d) v (m_complete d) (m_handler d)
                 (m_cleaned d) (m_state d).

Definition with_complete (v : bool) (d : generic_bus) : generic_bus :=
  mk_generic_bus (m_bus d) (m_lock d) v (m_handler d)
                 (m_cleaned d) (m_state d).

Definition with_handler (v : option H) (d : generic_bus) : generic_bus :=
  mk_generic_bus (m_bus d) (m_lock d) (m_complete d) v
                 (m_cleaned d) (m_state d).

Definition with_cleaned (v : bool) (d : generic_bus) : generic_bus :=
  mk_generic_bus (m_bus d) (m_lock d) (m_complete d) (m_handler d)
                 v (m_state d).

Definition with_state (f : Z -> Z) (d : generic_bus) : generic_bus :=
  mk_generic_bus (m_bus d) (m_lock d) (m_complete d) (m_handler d)
                 (m_cleaned d) (f (m_state d)).

Definition with_irqs (l : list event) (s : system) : system :=
  mk_system (dev s) l (invoked s).

Definition log_call (h : H) (e : event) (s : system) : system :=
  mk_system (dev s) (irqs s) ((h, e) :: invoked s).

(** Member functions run on a [system]. *)
Definition M : Type -> Type := prog system.

Definition get_state : M Z := fun s => Ret (m_state (dev s)) s.

Definition update (f : generic_bus -> generic_bus) : M unit :=
  fun s => Ret tt (with_dev f s).

(** Modelled from the spec: ecl/assert.h is not part of the sources.  A
    violated [ecl_assert] is a fatal fault, never a returned error. *)
Definition ecl_assert (b : bool) : M unit :=
  fun s => if b then Ret tt s else Fault assert_failed.

(** Modelled from the spec: ecl/thread/mutex.hpp is not part of the
    sources.  Acquire blocks while the mutex is held; release frees it. *)
Definition mutex_lock : M unit :=
  fun s => if m_lock (dev s) then Blocked
           else Ret tt (with_dev (with_lock true) s).

(** Modelled from the spec: release of the same mutex. *)
Definition mutex_unlock : M unit := update (with_lock false).

(** Modelled from the spec: ecl/thread/semaphore.hpp is not part of the
    sources.  The binary semaphore remembers one signal. *)
Definition semaphore_signal : M unit := update (with_complete true).

(** Modelled from the spec: [try_wait] consumes a remembered signal
    without blocking; its result is ignored by the caller. *)
Definition semaphore_try_wait : M unit := update (with_complete false).

(** [m_cleaned.test_and_set()]: sets the flag, returns its old value. *)
Definition test_and_set : M bool :=
  fun s => Ret (m_cleaned (dev s)) (with_dev (with_cleaned true) s).

(** [m_handler(type)]. *)
Definition call_handler (e : event) : M unit :=
  fun s => match m_handler (dev s) with
           | Some h => Ret tt (log_call h e s)
           | None => Fault bad_function_call
           end.

(** A call into the platform bus that yields a result code. *)
Definition bus_call (f : B -> err * B) : M err :=
  fun s => let r := f (m_bus (dev s)) in
           Ret (fst r) (with_dev (with_bus (fun _ => snd r)) s).

(** ** Private members *)

Definition bus_is_busy_st (st : Z) : bool :=
  let in_progress := false in
  let in_progress :=
    if flag_test st async_mode
    then negb (flag_test st async_mode)
    else in_progress in
  in_progress.

Definition bus_is_busy : M bool :=
  st <- get_state ;; ret (bus_is_busy_st st).

Definition cleanup_dev (d : generic_bus) : generic_bus :=
  with_handler None (with_bus Bus_reset_buffers d).

Definition cleanup : M unit := update cleanup_dev.

Definition is_last_event (e : event) : bool :=
  if Bus_event_eq_dec e Bus_xfer_done then true else false.

(** First part of [bus_handler]: a terminal event marks the transfer as
    served. *)
Definition bus_handler_mark (last_event : bool) : M unit :=
  when last_event
    (st <- get_state ;;
     ecl_assert (negb (flag_test st xfer_served)) ;;
     update (with_state (fun st => flag_set st xfer_served))).

(** Second part: in async mode the user handler sees the event, and the
    terminal event of an unlocked bus triggers the guarded cleanup. *)
Definition bus_handler_dispatch (e : event) (last_event : bool) : M unit :=
  st <- get_state ;;
  when (flag_test st async_mode)
    (call_handler e ;;
     st <- get_state ;;
     when (last_event && negb (flag_test st bus_locked))
       (was <- test_and_set ;;
        when (negb was) cleanup)).

(** Third part: the terminal event is announced on the semaphore. *)
Definition bus_handler_notify (last_event : bool) : M unit :=
  when last_event semaphore_signal.

Definition bus_handler (e : event) : M unit :=
  let last_event := is_last_event e in
  bus_handler_mark last_event ;;
  bus_handler_dispatch e last_event ;;
  bus_handler_notify last_event.

(** Modelled from the spec: [m_complete.wait()] of the same semaphore.  A
    remembered signal is consumed at once; otherwise the thread sleeps and
    the platform bus raises its next events, each served by [bus_handler],
    until one of them leaves a signal.  With no event left the thread
    never wakes up. *)
Fixpoint wait_events (evs : list event) (s : system) : outcome system unit :=
  if m_complete (dev s)
  then Ret tt (with_irqs evs (with_dev (with_complete false) s))
  else match evs with
       | [] => Blocked
       | e :: rest =>
           match bus_handler e (with_irqs rest s) with
           | Ret _ s' => wait_events rest s'
           | Fault f => Fault f
           | Blocked => Blocked
           end
       end.

Definition semaphore_wait : M unit := fun s => wait_events (irqs s) s.

(** ** Public members *)

Definition init : M err :=
  update (with_bus Bus_set_handler) ;;
  rc <- bus_call Bus_init ;;
  when (is_ok rc) (update (with_state (fun st => flag_set st bus_inited))) ;;
  ret rc.

Definition lock : M unit :=
  st <- get_state ;;
  ecl_assert (flag_test st bus_inited) ;;
  mutex_lock ;;
  update (with_state (fun st => flag_set st bus_locked)) ;;
  st <- get_state ;;
  when (flag_test st async_mode) semaphore_wait.

(** [unlock] up to and including the clearing of the lock flag. *)
Definition unlock_release_flag : M unit :=
  st <- get_state ;;
  ecl_assert (flag_test st bus_locked) ;;
  update (with_state (fun st => flag_clear st bus_locked)).

(** The cleanup decision of [unlock]. *)
Definition unlock_cleanup : M unit :=
  st <- get_state ;;
  if flag_test st async_mode then
    when (flag_test st xfer_served)
      (was <- test_and_set ;;
       when (negb was) cleanup)
  else cleanup.

Definition unlock : M unit :=
  unlock_release_flag ;;
  unlock_cleanup ;;
  mutex_unlock.

Definition set_buffers (tx rx : ptr) (size : N) : M err :=
  st <- get_state ;;
  ecl_assert (flag_test st bus_locked) ;;
  if is_null tx && is_null rx then ret inval
  else
    b <- bus_is_busy ;;
    if b then ret again
    else
      update (with_bus Bus_reset_buffers) ;;
      update (with_bus (Bus_set_tx tx size)) ;;
      update (with_bus (Bus_set_rx rx size)) ;;
      ret ok.

Definition set_buffers_fill (size : N) (fill_byte : Z) : M err :=
  st <- get_state ;;
  ecl_assert (flag_test st bus_locked) ;;
  b <- bus_is_busy ;;
  if b then ret again
  else
    update (with_bus Bus_reset_buffers) ;;
    update (with_bus (Bus_set_tx_fill size fill_byte)) ;;
    ret ok.

(** Blocking [xfer()] up to the call of [do_xfer]; the result is [Some
    busy] when the function returns early. *)
Definition xfer_prepare : M (option err) :=
  st <- get_state ;;
  ecl_assert (flag_test st bus_locked) ;;
  b <- bus_is_busy ;;
  if b then ret (Some busy)
  else
    update (with_state (fun st => flag_clear st async_mode)) ;;
    update (with_state (fun st => flag_clear st xfer_served)) ;;
    semaphore_try_wait ;;
    ret None.

(** Blocking [xfer()] after [do_xfer] has returned [rc]. *)
Definition xfer_finish (rc : err) : M err :=
  (if negb (is_error rc)
   then semaphore_wait
   else update (with_state (fun st => flag_set st xfer_served))) ;;
  ret rc.

Definition xfer : M err :=
  early <- xfer_prepare ;;
  match early with
  | Some e => ret e
  | None => rc <- bus_call Bus_do_xfer ;; xfer_finish rc
  end.

(** Event-driven [xfer(handler)] up to the call of [do_xfer]. *)
Definition xfer_async_prepare (handler : option H) : M (option err) :=
  st <- get_state ;;
  ecl_assert (flag_test st bus_locked) ;;
  b <- bus_is_busy ;;
  if b then ret (Some busy)
  else
    update (with_state (fun st => flag_set st async_mode)) ;;
    update (with_handler handler) ;;
    ret None.

(** Event-driven [xfer(handler)] after [do_xfer] has returned [rc]. *)
Definition xfer_async_finish (rc : err) : M err :=
  (if is_error rc
   then update (with_state (fun st => flag_set st xfer_served)) ;;
        update (with_state (fun st => flag_clear st async_mode))
   else update (with_state (fun st => flag_clear st xfer_served))) ;;
  ret rc.

Definition xfer_async (handler : option H) : M err :=
  early <- xfer_async_prepare handler ;;
  match early with
  | Some e => ret e
  | None => rc <- bus_call Bus_do_xfer ;; xfer_async_finish rc
  end.

(** ** Histories

    What can happen to the object: a call of a public member function, or
    an event raised by the platform bus and served by [bus_handler]. *)
Inductive call : Type :=
| c_init
| c_lock
| c_unlock
| c_set_buffers (tx rx : ptr) (size : N)
| c_set_buffers_fill (size : N) (fill_byte : Z)
| c_xfer
| c_xfer_async (handler : option H)
| c_event (e : event).

Definition do_call (c : call) : M unit :=
  match c with
  | c_init => init ;; ret tt
  | c_lock => lock
  | c_unlock => unlock
  | c_set_buffers tx rx size => set_buffers tx rx size ;; ret tt
  | c_set_buffers_fill size fill_byte =>
      set_buffers_fill size fill_byte ;; ret tt
  | c_xfer => xfer ;; ret tt
  | c_xfer_async handler => xfer_async handler ;; ret tt
  | c_event e => bus_handler e
  end.

Fixpoint do_calls (cs : list call) : M unit :=
  match cs with
  | [] => ret tt
  | c :: rest => do_call c ;; do_calls rest
  end.

(** A computation keeps the atomic flag when it never takes it from set
    to clear. *)
Definition keeps_cleaned {A : Type} (m : M A) : Prop :=
  forall s a s',
    m s = Ret a s' -> m_cleaned (dev s) = true -> m_cleaned (dev s') = true.

(** A computation preserves a property of the object when every normal
    return from a state with the property ends in a state with it. *)
Definition preserves (P : generic_bus -> Prop) {A : Type} (m : M A) : Prop :=
  forall s a s', m s = Ret a s' -> P (dev s) -> P (dev s').

(** ** Events raised while [do_xfer] is still running

    The platform bus may raise its events as soon as the transfer is
    started, that is before [do_xfer] has returned to [xfer].  [serve]
    hands a list of events to [bus_handler] in order. *)
Fixpoint serve (evs : list event) : M unit :=
  match evs with
  | [] => ret tt
  | e :: rest => bus_handler e ;; serve rest
  end.

(** Blocking [xfer()] when the events [during] are served between the
    start of [do_xfer] and its return. *)
Definition xfer_during (during : list event) : M err :=
  early <- xfer_prepare ;;
  match early with
  | Some e => ret e
  | None =>
      rc <- bus_call Bus_do_xfer ;;
      serve during ;;
      xfer_finish rc
  end.

(** Event-driven [xfer(handler)] when the events [during] are served
    between the start of [do_xfer] and its return. *)
Definition xfer_async_during (handler : option H) (during : list event)
    : M err :=
  early <- xfer_async_prepare handler ;;
  match early with
  | Some e => ret e
  | None =>
      rc <- bus_call Bus_do_xfer ;;
      serve during ;;
      xfer_async_finish rc
  end.

End GenericBus.

(** The events that follow the first terminal event of [evs], if there is
    one: what is still to come once a sleeping blocking [xfer()] has been
    woken up. *)
Fixpoint events_after_done {B event : Type} {PB : PlatformBus B event}
    (evs : list event) : option (list event) :=
  match evs with
  | [] => None
  | e :: rest =>
      if is_last_event e then Some rest else events_after_done rest
  end.

(** The bus-busy condition the documentation describes: an event-driven
    transfer has been issued and its terminal event is still to come. *)
Definition async_outstanding (st : Z) : bool :=
  flag_test st async_mode && negb (flag_test st xfer_served).

(** ** A simulated platform bus

    A concrete instance of the template parameter, used to run the member
    functions on explicit states.  The driver remembers the buffers it was
    given and answers [do_xfer] with a preset result code. *)
Module Sim.

Inductive sim_event : Type :=
| ev_half_done
| ev_xfer_done
| ev_error.

Definition sim_event_eq_dec (a b : sim_event) : {a = b} + {a <> b}.
Proof. decide equality. Defined.

Record sim_bus : Type := mk_sim_bus {
  sim_tx : option (ptr * N);
  sim_rx : option (ptr * N);
  sim_fill : option (N * Z);
  sim_rc : err
}.

#[export] Instance sim_platform : PlatformBus sim_bus sim_event := {
  Bus_xfer_done := ev_xfer_done;
  Bus_event_eq_dec := sim_event_eq_dec;
  Bus_set_handler := fun b => b;
  Bus_init := fun b => (ok, b);
  Bus_reset_buffers := fun b => mk_sim_bus None None None (sim_rc b);
  Bus_set_tx := fun p n b =>
    mk_sim_bus (Some (p, n)) (sim_rx b) (sim_fill b) (sim_rc b);
  Bus_set_rx := fun p n b =>
    mk_sim_bus (sim_tx b) (Some (p, n)) (sim_fill b) (sim_rc b);
  Bus_set_tx_fill := fun n byte b =>
    mk_sim_bus (sim_tx b) (sim_rx b) (Some (n, byte)) (sim_rc b);
  Bus_do_xfer := fun b => (sim_rc b, b)
}.

(** The same driver, except that [init] answers with the preset result
    code as well. *)
Definition sim_platform_init_rc : PlatformBus sim_bus sim_event := {|
  Bus_xfer_done := ev_xfer_done;
  Bus_event_eq_dec := sim_event_eq_dec;
  Bus_set_handler := fun b => b;
  Bus_init := fun b => (sim_rc b, b);
  Bus_reset_buffers := fun b => mk_sim_bus None None None (sim_rc b);
  Bus_set_tx := fun p n b =>
    mk_sim_bus (Some (p, n)) (sim_rx b) (sim_fill b) (sim_rc b);
  Bus_set_rx := fun p n b =>
    mk_sim_bus (sim_tx b) (Some (p, n)) (sim_fill b) (sim_rc b);
  Bus_set_tx_fill := fun n byte b =>
    mk_sim_bus (sim_tx b) (sim_rx b) (Some (n, byte)) (sim_rc b);
  Bus_do_xfer := fun b => (sim_rc b, b)
|}.

(** The usual reading of ecl/err.hpp: everything but [err::ok] is an
    error. *)
Definition sim_is_ok (e : err) : bool :=
  match e with
  | ok => true
  | _ => false
  end.

Definition sim_is_error (e : err) : bool := negb (sim_is_ok e).

(** User handlers are told apart by a number. *)
Definition sim_system : Type := @system sim_bus sim_event nat.

Definition unbound (rc : err) : sim_bus := mk_sim_bus None None None rc.

Definition bound (rc : err) : sim_bus :=
  mk_sim_bus (Some (Some 4096%N, 2%N)) (Some (Some 8192%N, 2%N)) None rc.

Definition rebound (rc : err) : sim_bus :=
  mk_sim_bus (Some (Some 12288%N, 4%N)) (Some (None, 4%N)) None rc.

Definition filled (rc : err) : sim_bus :=
  mk_sim_bus None None (Some (4%N, 255)) rc.

(** A freshly constructed object on a driver whose transfers succeed. *)
Definition fresh : sim_system :=
  mk_system (generic_bus_new (unbound ok)) [] [].

(** A successful [init()] on a fresh object, nothing else yet. *)
Definition idle : sim_system :=
  mk_system (mk_generic_bus (unbound ok) false false None false 1) [] [].

(** [idle] again after a blocking transfer has been served and the bus
    unlocked. *)
Definition idle_served : sim_system :=
  mk_system (mk_generic_bus (unbound ok) false false None false 9) [] [].

(** Inited, locked, buffers bound, no transfer issued yet. *)
Definition ready (rc : err) : sim_system :=
  mk_system (mk_generic_bus (bound rc) true false None false 5) [] [].

(** Inited and locked, an event-driven transfer with handler 11 has been
    issued and its terminal event has not arrived: [async_mode] is set and
    [xfer_served] is clear. *)
Definition outstanding : sim_system :=
  mk_system (mk_generic_bus (bound ok) true false (Some 11%nat) false 7) [] [].

(** Inited and locked after a blocking transfer has completed:
    [xfer_served] is set, [async_mode] is clear. *)
Definition served_blocking : sim_system :=
  mk_system (mk_generic_bus (bound ok) true false None false 13) [] [].

(** [outstanding] after a blocking [xfer()] that slept until the terminal
    event. *)
Definition outstanding_after_xfer : sim_system :=
  mk_system (mk_generic_bus (bound ok) true false (Some 11%nat) false 13) [] [].

(** [outstanding] after [set_buffers] with a new transmit buffer. *)
Definition outstanding_rebound : sim_system :=
  mk_system (mk_generic_bus (rebound ok) true false (Some 11%nat) false 7) [] [].

(** [outstanding] after [set_buffers] with a fill byte. *)
Definition outstanding_filled : sim_system :=
  mk_system (mk_generic_bus (filled ok) true false (Some 11%nat) false 7) [] [].

(** [outstanding] once the terminal event has been served, the bus still
    locked. *)
Definition outstanding_served : sim_system :=
  mk_system (mk_generic_bus (bound ok) true true (Some 11%nat) false 15) []
            [(11%nat, ev_xfer_done)].

(** [outstanding] when the next [lock()] has overtaken the terminal
    event: the event has been served under the new lock and its signal
    consumed. *)
Definition outstanding_served_unsignalled : sim_system :=
  mk_system (mk_generic_bus (bound ok) true false (Some 11%nat) false 15) []
            [(11%nat, ev_xfer_done)].

(** [served_blocking] at the moment event-driven [xfer(handler)] calls
    [do_xfer]. *)
Definition served_then_async : sim_system :=
  mk_system (mk_generic_bus (bound ok) true false (Some 11%nat) false 15) [] [].

(** One complete event-driven cycle: lock, bind, issue with handler [h],
    terminal event, unlock. *)
Definition async_cycle (h : nat) : prog sim_system unit :=
  lock ;;
  set_buffers (Some 4096%N) (Some 8192%N) 2 ;;
  xfer_async sim_is_error (Some h) ;;
  bus_handler ev_xfer_done ;;
  unlock.

(** The same cycle with the unlock overtaking the terminal event. *)
Definition async_cycle_late_event (h : nat) : prog sim_system unit :=
  lock ;;
  set_buffers (Some 4096%N) (Some 8192%N) 2 ;;
  xfer_async sim_is_error (Some h) ;;
  unlock ;;
  bus_handler ev_xfer_done.

(** The state after [init] and a first event-driven cycle: cleanup has
    run, the atomic flag is set. *)
Definition after_first_cycle : sim_system :=
  mk_system (mk_generic_bus (unbound ok) false true None true 11) []
            [(11%nat, ev_xfer_done)].

(** The second event-driven transfer, handler 12, just issued. *)
Definition second_issued : sim_system :=
  mk_system (mk_generic_bus (bound ok) true false (Some 12%nat) true 7) []
            [(11%nat, ev_xfer_done)].

(** The state after a second event-driven cycle with handler 12. *)
Definition after_second_cycle : sim_system :=
  mk_system (mk_generic_bus (bound ok) false true (Some 12%nat) true 11) []
            [(12%nat, ev_xfer_done); (11%nat, ev_xfer_done)].

(** [ready] after an event-driven [xfer(handler)] whose terminal event was
    served while [do_xfer] was still running: handler 11 has seen the
    event and the semaphore holds its signal, yet [xfer_served] is
    clear. *)
Definition issued_and_forgotten : sim_system :=
  mk_system (mk_generic_bus (bound ok) true true (Some 11%nat) false 7) []
            [(11%nat, ev_xfer_done)].

End Sim.

Arguments flag_test : simpl never.
Arguments flag_set : simpl never.
Arguments flag_clear : simpl never.

(** ** Bits of the status byte *)

Lemma flag_test_bit (st k : Z) :
  0 <= k -> flag_test st (2 ^ k) = Z.testbit st k.
Proof.
  intros Hk. unfold flag_test.
  destruct (Z.testbit st k) eqn:Hb.
  - destruct (Z.eqb_spec (Z.land st (2 ^ k)) 0) as [E|E]; [|reflexivity].
    assert (Hc : Z.testbit (Z.land st (2 ^ k)) k = true).
    { rewrite Z.land_spec, Hb, Z.pow2_bits_true by assumption. reflexivity. }
    rewrite E, Z.bits_0 in Hc. discriminate.
  - assert (E : Z.land st (2 ^ k) = 0).
    { apply Z.bits_inj'. intros n Hn.
      rewrite Z.land_spec, Z.bits_0, Z.pow2_bits_eqb by assumption.
      destruct (Z.eqb_spec k n) as [->|_].
      - rewrite Hb. reflexivity.
      - apply andb_false_r. }
    rewrite E. reflexivity.
Qed.

Lemma testbit_uint8 (z j : Z) :
  0 <= j < 8 -> Z.testbit (uint8 z) j = Z.testbit z j.
Proof.
  intros Hj. unfold uint8. change 256 with (2 ^ 8).
  apply Z.mod_pow2_bits_low. lia.
Qed.

Lemma flag_test_set (st j k : Z) :
  0 <= j < 8 -> 0 <= k ->
  flag_test (flag_set st (2 ^ k)) (2 ^ j) = flag_test st (2 ^ j) || (k =? j).
Proof.
  intros Hj Hk. rewrite !flag_test_bit by lia. unfold flag_set.
  rewrite testbit_uint8, Z.lor_spec, Z.pow2_bits_eqb by lia. reflexivity.
Qed.

Lemma flag_test_clear (st j k : Z) :
  0 <= j < 8 -> 0 <= k ->
  flag_test (flag_clear st (2 ^ k)) (2 ^ j)
  = flag_test st (2 ^ j) && negb (k =? j).
Proof.
  intros Hj Hk. rewrite !flag_test_bit by lia. unfold flag_clear.
  rewrite testbit_uint8, Z.land_spec, Z.lnot_spec, Z.pow2_bits_eqb by lia.
  reflexivity.
Qed.

(** Rewrites every test of a flag after a sequence of [flag_set] and
    [flag_clear] into a test on the initial byte. *)
Ltac flag_bits :=
  change bus_inited with (2 ^ 0) in *;
  change async_mode with (2 ^ 1) in *;
  change bus_locked with (2 ^ 2) in *;
  change xfer_served with (2 ^ 3) in *;
  repeat first
    [ rewrite flag_test_set by lia
    | rewrite flag_test_clear by lia ];
  cbn [Z.eqb Pos.eqb negb];
  repeat first
    [ rewrite orb_false_r | rewrite orb_true_r
    | rewrite andb_true_r | rewrite andb_false_r ].

Lemma flag_bits_sample (st : Z) :
  flag_test (flag_clear (flag_set st async_mode) bus_locked) async_mode = true
  /\ flag_test (flag_clear (flag_set st async_mode) bus_locked) bus_locked = false
  /\ flag_test (flag_clear (flag_set st async_mode) bus_locked) xfer_served
     = flag_test st xfer_served.
Proof. repeat split; flag_bits; reflexivity. Qed.

(** ** Properties of the member functions *)

Section GenericBusFacts.

Context {B event H : Type} {PB : PlatformBus B event}.
Variable is_ok : err -> bool.
Variable is_error : err -> bool.

Local Notation "'system'" := (@system B event H) (only parsing).
Local Notation "'M'" := (@M B event H) (only parsing).
Local Notation "'kept' m" := (@keeps_cleaned B event H _ m)
  (at level 10, m at level 9, only parsing).

Lemma bus_is_busy_st_false (st : Z) : bus_is_busy_st st = false.
Proof.
  unfold bus_is_busy_st.
  destruct (flag_test st async_mode); reflexivity.
Qed.

Lemma bus_is_busy_false (s : system) : bus_is_busy s = Ret false s.
Proof.
  unfold bus_is_busy, bind, get_state, ret.
  rewrite bus_is_busy_st_false. reflexivity.
Qed.

(** Runs a member function symbolically up to the next test of the
    status byte. *)
Ltac run :=
  cbv beta iota zeta delta
    [bind ret when get_state update ecl_assert mutex_unlock
     semaphore_signal semaphore_try_wait test_and_set cleanup bus_call];
  cbn [with_dev with_state with_bus with_lock with_complete
       with_handler with_cleaned with_irqs cleanup_dev log_call
       dev m_state m_bus m_lock m_complete m_handler m_cleaned
       irqs invoked negb andb orb].

(** [C9] For every size [n] and every state whose lock flag is set,
    [set_buffers(nullptr, nullptr, n)] returns [err::inval] and leaves the
    whole object, hence the buffers bound in the platform bus,
    unchanged. *)
Theorem set_buffers_null_is_inval (n : N) (s : system) :
  flag_test (m_state (dev s)) bus_locked = true ->
  set_buffers None None n s = Ret inval s
  /\ (forall s', set_buffers None None n s = Ret inval s' ->
       m_bus (dev s') = m_bus (dev s)).
Proof.
  intros Hl.
  assert (E : set_buffers None None n s = Ret inval s).
  { unfold set_buffers. run. rewrite Hl. reflexivity. }
  split; [exact E|]. intros s' E'. rewrite E in E'.
  injection E' as <-. reflexivity.
Qed.

(** [C5] When [do_xfer] reports an error during [xfer(handler)], the
    call returns that error with [xfer_served] set and [async_mode]
    clear; the bus stays locked and is not busy, neither for
    [bus_is_busy()] nor in the documented sense of an outstanding
    event-driven transfer. *)
Theorem xfer_async_transport_error (h : option H) (s : system) :
  flag_test (m_state (dev s)) bus_locked = true ->
  is_error (fst (Bus_do_xfer (m_bus (dev s)))) = true ->
  exists s',
    xfer_async is_error h s = Ret (fst (Bus_do_xfer (m_bus (dev s)))) s'
    /\ flag_test (m_state (dev s')) xfer_served = true
    /\ flag_test (m_state (dev s')) async_mode = false
    /\ flag_test (m_state (dev s')) bus_locked = true
    /\ bus_is_busy s' = Ret false s'
    /\ async_outstanding (m_state (dev s')) = false.
Proof.
  intros Hl He.
  unfold xfer_async, xfer_async_prepare, xfer_async_finish.
  run. rewrite Hl, bus_is_busy_false. run. rewrite He. run.
  eexists. split; [reflexivity|]. run.
  unfold async_outstanding. rewrite bus_is_busy_false.
  repeat split; flag_bits; try reflexivity; assumption.
Qed.

(** With the lock flag set, blocking [xfer()] reaches
    [do_xfer] with [xfer_served] clear.  Event-driven [xfer(handler)]
    reaches [do_xfer] with [xfer_served] as it found it; the flag is
    written only after [do_xfer] has returned: set on an error, cleared on
    success. *)
Theorem xfer_served_reset_points (h : option H) (rc : err) (s : system) :
  flag_test (m_state (dev s)) bus_locked = true ->
  (exists s1,
     xfer_prepare s = Ret None s1
     /\ flag_test (m_state (dev s1)) xfer_served = false
     /\ xfer is_error s
        = (r <- bus_call Bus_do_xfer ;; xfer_finish is_error r) s1)
  /\ (exists s1,
     xfer_async_prepare h s = Ret None s1
     /\ flag_test (m_state (dev s1)) xfer_served
        = flag_test (m_state (dev s)) xfer_served
     /\ xfer_async is_error h s
        = (r <- bus_call Bus_do_xfer ;; xfer_async_finish is_error r) s1)
  /\ (exists s2,
     xfer_async_finish is_error rc s = Ret rc s2
     /\ flag_test (m_state (dev s2)) xfer_served = is_error rc).
Proof.
  intros Hl. repeat split.
  - eexists. unfold xfer, xfer_prepare. run.
    rewrite Hl, bus_is_busy_false. run.
    split; [reflexivity|]. split; [|reflexivity].
    run. flag_bits. reflexivity.
  - eexists. unfold xfer_async, xfer_async_prepare. run.
    rewrite Hl, bus_is_busy_false. run.
    split; [reflexivity|]. split; [|reflexivity].
    run. flag_bits. reflexivity.
  - unfold xfer_async_finish. run.
    destruct (is_error rc); run; eexists; (split; [reflexivity|]);
      run; flag_bits; reflexivity.
Qed.

(** [C7] With the lock flag set, [unlock()] first clears that flag; the
    cleanup decision is taken on the resulting state: in blocking mode
    cleanup runs; in async mode with [xfer_served] set the atomic flag is
    tested and set and cleanup runs only if it was clear; in async mode
    with [xfer_served] clear nothing is done.  The mutex is released
    last. *)
Theorem unlock_behaviour (s : system) :
  flag_test (m_state (dev s)) bus_locked = true ->
  let s1 := with_dev (with_state (fun st => flag_clear st bus_locked)) s in
  let d2 :=
    if flag_test (m_state (dev s)) async_mode
    then if flag_test (m_state (dev s)) xfer_served
         then if m_cleaned (dev s)
              then dev s1
              else cleanup_dev (with_cleaned true (dev s1))
         else dev s1
    else cleanup_dev (dev s1) in
  unlock_release_flag s = Ret tt s1
  /\ flag_test (m_state (dev s1)) bus_locked = false
  /\ unlock_cleanup s1 = Ret tt (with_dev (fun _ => d2) s1)
  /\ unlock s = (unlock_cleanup ;; mutex_unlock) s1
  /\ unlock s = Ret tt (with_dev (with_lock false) (with_dev (fun _ => d2) s1)).
Proof.
  intros Hl s1 d2.
  assert (E1 : unlock_release_flag s = Ret tt s1).
  { unfold unlock_release_flag. run. rewrite Hl. reflexivity. }
  assert (E2 : unlock_cleanup s1 = Ret tt (with_dev (fun _ => d2) s1)).
  { unfold unlock_cleanup, d2, s1. run. flag_bits.
    destruct (flag_test (m_state (dev s)) (2 ^ 1)); run.
    - destruct (flag_test (m_state (dev s)) (2 ^ 3)); run.
      + destruct (m_cleaned (dev s)) eqn:Hc; run; [|reflexivity].
        rewrite <- Hc at 1. destruct s as [d i l]. destruct d.
        reflexivity.
      + destruct s as [d i l]. reflexivity.
    - reflexivity. }
  assert (E3 : unlock s = (unlock_cleanup ;; mutex_unlock) s1).
  { unfold unlock. unfold bind at 1. rewrite E1. reflexivity. }
  repeat split.
  - exact E1.
  - unfold s1. run. flag_bits. reflexivity.
  - exact E2.
  - exact E3.
  - rewrite E3. unfold bind. rewrite E2. reflexivity.
Qed.

Lemma is_last_event_done : is_last_event Bus_xfer_done = true.
Proof.
  unfold is_last_event.
  destruct (Bus_event_eq_dec Bus_xfer_done Bus_xfer_done); congruence.
Qed.

Lemma is_last_event_other (e : event) :
  e <> Bus_xfer_done -> is_last_event e = false.
Proof.
  intros Hne. unfold is_last_event.
  destruct (Bus_event_eq_dec e Bus_xfer_done); congruence.
Qed.

(** The terminal event on a transfer that is not yet served: the three
    parts of [bus_handler] written out. *)
Lemma bus_handler_done_eq (s : system) :
  flag_test (m_state (dev s)) xfer_served = false ->
  let s1 := with_dev (with_state (fun st => flag_set st xfer_served)) s in
  bus_handler_mark true s = Ret tt s1
  /\ bus_handler Bus_xfer_done s
     = match bus_handler_dispatch Bus_xfer_done true s1 with
       | Ret _ s2 => Ret tt (with_dev (with_complete true) s2)
       | Fault f => Fault f
       | Blocked => Blocked
       end.
Proof.
  intros Hs s1. unfold bus_handler. rewrite is_last_event_done.
  assert (E : bus_handler_mark true s = Ret tt s1).
  { unfold bus_handler_mark. run. rewrite Hs. reflexivity. }
  split; [exact E|].
  unfold bind at 1. rewrite E. unfold bind at 1.
  destruct (bus_handler_dispatch Bus_xfer_done true s1) as [[] s2|f|];
    reflexivity.
Qed.

(** The dispatch part never touches the status byte or the semaphore. *)
Lemma bus_handler_dispatch_frame (e : event) (l : bool) (s s' : system) :
  bus_handler_dispatch e l s = Ret tt s' ->
  m_state (dev s') = m_state (dev s)
  /\ m_complete (dev s') = m_complete (dev s).
Proof.
  unfold bus_handler_dispatch, call_handler. run.
  destruct (flag_test (m_state (dev s)) async_mode); run.
  - destruct (m_handler (dev s)); [|discriminate]. run.
    destruct (l && negb (flag_test (m_state (dev s)) bus_locked)); run.
    + destruct (m_cleaned (dev s)); run; intros E; injection E as <-;
        split; reflexivity.
    + intros E; injection E as <-. split; reflexivity.
  - intros E; injection E as <-. split; reflexivity.
Qed.

(** Nor does it touch the mutex. *)
Lemma bus_handler_dispatch_lock (e : event) (l : bool) (s s' : system) :
  bus_handler_dispatch e l s = Ret tt s' ->
  m_lock (dev s') = m_lock (dev s).
Proof.
  unfold bus_handler_dispatch, call_handler. run.
  destruct (flag_test (m_state (dev s)) async_mode); run.
  - destruct (m_handler (dev s)); [|discriminate]. run.
    destruct (l && negb (flag_test (m_state (dev s)) bus_locked)); run.
    + destruct (m_cleaned (dev s)); run; intros E; injection E as <-;
        reflexivity.
    + intros E; injection E as <-. reflexivity.
  - intros E; injection E as <-. reflexivity.
Qed.

(** The dispatch part returns unless it has to call an empty handler. *)
Lemma bus_handler_dispatch_returns (e : event) (l : bool) (s : system) :
  flag_test (m_state (dev s)) async_mode = false
  \/ m_handler (dev s) <> None ->
  exists s', bus_handler_dispatch e l s = Ret tt s'.
Proof.
  intros Hr. unfold bus_handler_dispatch, call_handler. run.
  destruct (flag_test (m_state (dev s)) async_mode); run.
  - destruct (m_handler (dev s)).
    + run. destruct (l && negb (flag_test (m_state (dev s)) bus_locked)); run.
      * destruct (m_cleaned (dev s)); run; eexists; reflexivity.
      * eexists; reflexivity.
    + destruct Hr; congruence.
  - eexists; reflexivity.
Qed.

(** [C8] [bus_handler] on a terminal event aborts on the assertion when
    [xfer_served] is already set; otherwise, whenever it returns,
    [xfer_served] is set and the semaphore holds a signal, the signal
    being given after the marking and the dispatch (user handler, guarded
    cleanup), which leave the semaphore as it was.  It does return unless
    async mode has to call an empty handler.  A non-terminal event leaves
    the status byte and the semaphore unchanged. *)
Theorem bus_handler_terminal_protocol (e : event) (s : system) :
  (e = Bus_xfer_done ->
   flag_test (m_state (dev s)) xfer_served = true ->
   bus_handler e s = Fault assert_failed)
  /\ (e = Bus_xfer_done ->
      flag_test (m_state (dev s)) xfer_served = false ->
      forall s', bus_handler e s = Ret tt s' ->
        flag_test (m_state (dev s')) xfer_served = true
        /\ m_complete (dev s') = true
        /\ exists s2,
             (bus_handler_mark true ;; bus_handler_dispatch e true) s
             = Ret tt s2
             /\ m_complete (dev s2) = m_complete (dev s)
             /\ s' = with_dev (with_complete true) s2)
  /\ (flag_test (m_state (dev s)) xfer_served = false
      \/ e <> Bus_xfer_done ->
      flag_test (m_state (dev s)) async_mode = false
      \/ m_handler (dev s) <> None ->
      exists s', bus_handler e s = Ret tt s')
  /\ (e <> Bus_xfer_done ->
      forall s', bus_handler e s = Ret tt s' ->
        m_state (dev s') = m_state (dev s)
        /\ m_complete (dev s') = m_complete (dev s)).
Proof.
  split; [|split; [|split]].
  - intros -> Hs. unfold bus_handler. rewrite is_last_event_done.
    unfold bus_handler_mark. run. rewrite Hs. reflexivity.
  - intros -> Hs s' E.
    destruct (bus_handler_done_eq s Hs) as [Em Eh]. rewrite Eh in E.
    set (s1 := with_dev (with_state (fun st => flag_set st xfer_served)) s)
      in *.
    destruct (bus_handler_dispatch Bus_xfer_done true s1) as [[] s2|f|] eqn:Ed;
      try discriminate.
    injection E as <-.
    destruct (bus_handler_dispatch_frame _ _ _ Ed) as [Fs Fc].
    run. rewrite Fs. unfold s1 at 1. run. flag_bits.
    repeat split.
    exists s2. unfold bind. rewrite Em, Ed.
    repeat split. rewrite Fc. reflexivity.
  - intros Hs Hr.
    destruct (Bus_event_eq_dec e Bus_xfer_done) as [->|Hne].
    + destruct Hs as [Hs|Hs]; [|congruence].
      destruct (bus_handler_done_eq s Hs) as [_ Eh]. rewrite Eh.
      destruct (bus_handler_dispatch_returns Bus_xfer_done true
                  (with_dev (with_state (fun st => flag_set st xfer_served)) s))
        as [s2 E2].
      { run. flag_bits. exact Hr. }
      rewrite E2. eexists; reflexivity.
    + unfold bus_handler. rewrite (is_last_event_other Hne).
      unfold bus_handler_mark, bus_handler_notify. run.
      destruct (bus_handler_dispatch_returns e false s Hr) as [s2 E2].
      rewrite E2. eexists; reflexivity.
  - intros Hne s'. unfold bus_handler. rewrite (is_last_event_other Hne).
    unfold bus_handler_mark, bus_handler_notify. run.
    destruct (bus_handler_dispatch e false s) as [[] s2|f|] eqn:Ed;
      try discriminate.
    intros E; injection E as <-.
    exact (bus_handler_dispatch_frame _ _ _ Ed).
Qed.

Lemma events_after_done_none (evs : list event) :
  ~ In Bus_xfer_done evs -> events_after_done evs = None.
Proof.
  induction evs as [|e rest IH]; intros Hn; [reflexivity|].
  cbn [events_after_done].
  rewrite is_last_event_other.
  - apply IH. intros Hi. apply Hn. right. exact Hi.
  - intros ->. apply Hn. left. reflexivity.
Qed.

Lemma events_after_done_split (pre post : list event) :
  ~ In Bus_xfer_done pre ->
  events_after_done (pre ++ Bus_xfer_done :: post) = Some post.
Proof.
  induction pre as [|e rest IH]; intros Hn; cbn [app events_after_done].
  - rewrite is_last_event_done. reflexivity.
  - rewrite is_last_event_other.
    + apply IH. intros Hi. apply Hn. right. exact Hi.
    + intros ->. apply Hn. left. reflexivity.
Qed.

(** In blocking mode a non-terminal event passes unnoticed. *)
Lemma bus_handler_blocking_other (e : event) (s : system) :
  flag_test (m_state (dev s)) async_mode = false ->
  is_last_event e = false ->
  bus_handler e s = Ret tt s.
Proof.
  intros Ha He. unfold bus_handler. rewrite He.
  unfold bus_handler_mark, bus_handler_dispatch, bus_handler_notify.
  run. rewrite Ha. reflexivity.
Qed.

(** In blocking mode the terminal event marks the transfer as served and
    signals the semaphore. *)
Lemma bus_handler_blocking_done (e : event) (s : system) :
  flag_test (m_state (dev s)) async_mode = false ->
  flag_test (m_state (dev s)) xfer_served = false ->
  is_last_event e = true ->
  bus_handler e s
  = Ret tt (with_dev (with_complete true)
             (with_dev (with_state (fun st => flag_set st xfer_served)) s)).
Proof.
  intros Ha Hs He. unfold bus_handler. rewrite He.
  unfold bus_handler_mark, bus_handler_dispatch, bus_handler_notify.
  run. rewrite Hs. run. flag_bits. rewrite Ha. reflexivity.
Qed.

(** A thread sleeping in blocking mode wakes up on the first terminal
    event and on nothing else. *)
Lemma wait_events_blocking (evs : list event) :
  forall s : system,
    m_complete (dev s) = false ->
    flag_test (m_state (dev s)) async_mode = false ->
    flag_test (m_state (dev s)) xfer_served = false ->
    wait_events evs s
    = match events_after_done evs with
      | Some post =>
          Ret tt (with_irqs post
                   (with_dev (with_complete false)
                     (with_dev (with_state (fun st => flag_set st xfer_served))
                        s)))
      | None => Blocked
      end.
Proof.
  induction evs as [|e rest IH]; intros s Hc Ha Hs;
    cbn [wait_events events_after_done]; rewrite Hc; [reflexivity|].
  destruct (is_last_event e) eqn:He.
  - rewrite bus_handler_blocking_done by assumption.
    destruct rest; reflexivity.
  - rewrite bus_handler_blocking_other by assumption.
    rewrite IH by assumption.
    destruct (events_after_done rest); reflexivity.
Qed.

(** [C6] Blocking [xfer()] on a locked bus reaches [do_xfer] with
    [async_mode] clear.  If [do_xfer] reports an error, the call returns
    it with [xfer_served] set and without consuming any event, so without
    waiting.  If [do_xfer] succeeds, the call sleeps on the semaphore: it
    never returns when no terminal event is to come, and otherwise returns
    the success code exactly when the first terminal event has been
    served. *)
Theorem xfer_blocking_behaviour (s : system) :
  flag_test (m_state (dev s)) bus_locked = true ->
  let rc := fst (Bus_do_xfer (m_bus (dev s))) in
  (exists s1,
     xfer_prepare s = Ret None s1
     /\ flag_test (m_state (dev s1)) async_mode = false
     /\ m_bus (dev s1) = m_bus (dev s))
  /\ (is_error rc = true ->
      exists s',
        xfer is_error s = Ret rc s'
        /\ flag_test (m_state (dev s')) xfer_served = true
        /\ flag_test (m_state (dev s')) async_mode = false
        /\ irqs s' = irqs s
        /\ invoked s' = invoked s)
  /\ (is_error rc = false ->
      (~ In Bus_xfer_done (irqs s) -> xfer is_error s = Blocked)
      /\ (forall pre post,
            irqs s = pre ++ Bus_xfer_done :: post ->
            ~ In Bus_xfer_done pre ->
            exists s',
              xfer is_error s = Ret rc s'
              /\ irqs s' = post
              /\ flag_test (m_state (dev s')) xfer_served = true
              /\ flag_test (m_state (dev s')) async_mode = false
              /\ m_complete (dev s') = false)).
Proof.
  intros Hl rc.
  assert (Ep : xfer_prepare s
               = Ret None
                   (with_dev (with_complete false)
                     (with_dev (with_state (fun st => flag_clear st xfer_served))
                       (with_dev (with_state (fun st => flag_clear st async_mode))
                          s)))).
  { unfold xfer_prepare. run. rewrite Hl, bus_is_busy_false. reflexivity. }
  split; [|split].
  - eexists. split; [exact Ep|]. run. flag_bits. split; reflexivity.
  - intros He. unfold xfer. unfold bind at 1. rewrite Ep.
    unfold xfer_finish. run. fold rc. rewrite He. run.
    eexists. split; [reflexivity|]. run. flag_bits.
    repeat split.
  - intros He.
    assert (Ex : forall r,
               events_after_done (irqs s) = r ->
               xfer is_error s
               = match r with
                 | Some post =>
                     Ret rc
                       (with_irqs post
                         (with_dev (with_complete false)
                           (with_dev
                              (with_state (fun st => flag_set st xfer_served))
                              (with_dev
                                 (with_bus
                                    (fun _ => snd (Bus_do_xfer (m_bus (dev s)))))
                                 (with_dev (with_complete false)
                                   (with_dev
                                      (with_state
                                         (fun st => flag_clear st xfer_served))
                                      (with_dev
                                         (with_state
                                            (fun st => flag_clear st async_mode))
                                         s)))))))
                 | None => Blocked
                 end).
    { intros r Er. unfold xfer. unfold bind at 1. rewrite Ep.
      unfold xfer_finish, semaphore_wait. run. fold rc. rewrite He. run.
      rewrite wait_events_blocking; run; flag_bits; try reflexivity.
      rewrite Er. destruct r; reflexivity. }
    split.
    + intros Hn. apply (Ex None). apply events_after_done_none. exact Hn.
    + intros pre post Hi Hn.
      rewrite (Ex (Some post)).
      * eexists. split; [reflexivity|]. run. flag_bits. repeat split.
      * rewrite Hi. apply events_after_done_split. exact Hn.
Qed.

Lemma bind_ret_inv {A C : Type} (m : M A) (k : A -> M C)
    (s s' : system) (c : C) :
  bind m k s = Ret c s' ->
  exists a s1, m s = Ret a s1 /\ k a s1 = Ret c s'.
Proof.
  unfold bind. destruct (m s) as [a s1|f|]; try discriminate.
  intros E. exists a, s1. split; [reflexivity|exact E].
Qed.

(** What a served terminal event leaves behind. *)
Lemma bus_handler_done_state (s s' : system) :
  bus_handler Bus_xfer_done s = Ret tt s' ->
  m_state (dev s') = flag_set (m_state (dev s)) xfer_served
  /\ m_complete (dev s') = true
  /\ m_lock (dev s') = m_lock (dev s).
Proof.
  intros E.
  destruct (flag_test (m_state (dev s)) xfer_served) eqn:Hs.
  - unfold bus_handler in E. rewrite is_last_event_done in E.
    unfold bus_handler_mark in E. revert E. run. rewrite Hs. discriminate.
  - destruct (bus_handler_done_eq s Hs) as [_ Eh]. rewrite Eh in E.
    destruct (bus_handler_dispatch Bus_xfer_done true _) as [[] s2|f|] eqn:Ed;
      try discriminate.
    injection E as <-.
    destruct (bus_handler_dispatch_frame _ _ _ Ed) as [Fs _].
    pose proof (bus_handler_dispatch_lock _ _ _ Ed) as Fl.
    run. rewrite Fs, Fl. repeat split.
Qed.

(** What [unlock()] leaves behind. *)
Lemma unlock_state (s s' : system) :
  unlock s = Ret tt s' ->
  m_state (dev s') = flag_clear (m_state (dev s)) bus_locked
  /\ m_complete (dev s') = m_complete (dev s)
  /\ m_lock (dev s') = false.
Proof.
  unfold unlock, unlock_release_flag, unlock_cleanup. run.
  destruct (flag_test (m_state (dev s)) bus_locked); [|discriminate]. run.
  destruct (flag_test (flag_clear (m_state (dev s)) bus_locked) async_mode);
    run.
  - destruct (flag_test (flag_clear (m_state (dev s)) bus_locked) xfer_served);
      run.
    + destruct (m_cleaned (dev s)); run; intros E; injection E as <-;
        repeat split.
    + intros E; injection E as <-. repeat split.
  - intros E; injection E as <-. repeat split.
Qed.

(** What event-driven [xfer(handler)] leaves behind. *)
Lemma xfer_async_state (h : option H) (rc : err) (s s' : system) :
  xfer_async is_error h s = Ret rc s' ->
  m_state (dev s')
  = (if is_error rc
     then flag_clear
            (flag_set (flag_set (m_state (dev s)) async_mode) xfer_served)
            async_mode
     else flag_clear (flag_set (m_state (dev s)) async_mode) xfer_served)
  /\ m_cleaned (dev s') = m_cleaned (dev s)
  /\ m_complete (dev s') = m_complete (dev s)
  /\ m_lock (dev s') = m_lock (dev s).
Proof.
  unfold xfer_async, xfer_async_prepare, xfer_async_finish. run.
  destruct (flag_test (m_state (dev s)) bus_locked); [|discriminate].
  rewrite bus_is_busy_false. run.
  destruct (is_error (fst (Bus_do_xfer (m_bus (dev s))))) eqn:He; run;
    intros E; injection E as <- <-; rewrite He; repeat split.
Qed.

(** [C10] [cleanup()] resets the buffers of the platform bus and empties
    the stored handler; the status byte, the atomic flag, the mutex and
    the semaphore are left as they were.  Hence after an event-driven
    cycle (successful issue, terminal event and unlock in either order)
    [async_mode] is still set, and the next [lock()] goes through the
    wait on the semaphore, consuming the signal of the terminal event. *)
Theorem cleanup_frame (s : system) :
  (exists s',
     cleanup s = Ret tt s'
     /\ m_bus (dev s') = Bus_reset_buffers (m_bus (dev s))
     /\ m_handler (dev s') = None
     /\ m_state (dev s') = m_state (dev s)
     /\ m_cleaned (dev s') = m_cleaned (dev s)
     /\ m_lock (dev s') = m_lock (dev s)
     /\ m_complete (dev s') = m_complete (dev s))
  /\ (forall h rc s1 s3,
        flag_test (m_state (dev s)) bus_inited = true ->
        xfer_async is_error h s = Ret rc s1 ->
        is_error rc = false ->
        (bus_handler Bus_xfer_done ;; unlock) s1 = Ret tt s3
        \/ (unlock ;; bus_handler Bus_xfer_done) s1 = Ret tt s3 ->
        flag_test (m_state (dev s3)) async_mode = true
        /\ lock s3
           = semaphore_wait
               (with_dev (with_state (fun st => flag_set st bus_locked))
                  (with_dev (with_lock true) s3))
        /\ exists s4,
             lock s3 = Ret tt s4
             /\ m_complete (dev s3) = true
             /\ m_complete (dev s4) = false
             /\ irqs s4 = irqs s3).
Proof.
  split.
  - eexists. split; [reflexivity|]. run. repeat split.
  - intros h rc s1 s3 Hi Ex He Hc.
    destruct (xfer_async_state _ _ Ex) as (Es1 & _ & _ & _).
    rewrite He in Es1.
    assert (Hs3 : m_state (dev s3)
                  = flag_clear (flag_set (m_state (dev s1)) xfer_served)
                      bus_locked
                  \/ m_state (dev s3)
                     = flag_set (flag_clear (m_state (dev s1)) bus_locked)
                         xfer_served).
    { destruct Hc as [Hc|Hc];
        apply bind_ret_inv in Hc; destruct Hc as ([] & s2 & E1 & E2).
      - left. apply bus_handler_done_state in E1. apply unlock_state in E2.
        destruct E2 as (-> & _). destruct E1 as (-> & _). reflexivity.
      - right. apply unlock_state in E1. apply bus_handler_done_state in E2.
        destruct E2 as (-> & _). destruct E1 as (-> & _). reflexivity. }
    assert (Hm : m_complete (dev s3) = true /\ m_lock (dev s3) = false).
    { destruct Hc as [Hc|Hc];
        apply bind_ret_inv in Hc; destruct Hc as ([] & s2 & E1 & E2).
      - apply bus_handler_done_state in E1. apply unlock_state in E2.
        destruct E1 as (_ & E1 & _). destruct E2 as (_ & -> & ->).
        split; [exact E1|reflexivity].
      - apply unlock_state in E1. apply bus_handler_done_state in E2.
        destruct E1 as (_ & _ & E1). destruct E2 as (_ & -> & ->).
        split; [reflexivity|exact E1]. }
    destruct Hm as [Hm Hk].
    assert (Ha : flag_test (m_state (dev s3)) async_mode = true).
    { destruct Hs3 as [-> | ->]; rewrite Es1; flag_bits; reflexivity. }
    assert (Hi3 : flag_test (m_state (dev s3)) bus_inited = true).
    { destruct Hs3 as [-> | ->]; rewrite Es1; flag_bits; exact Hi. }
    assert (El : lock s3
                 = semaphore_wait
                     (with_dev (with_state (fun st => flag_set st bus_locked))
                        (with_dev (with_lock true) s3))).
    { unfold lock, mutex_lock. run. rewrite Hi3, Hk. run.
      flag_bits. rewrite Ha. reflexivity. }
    split; [exact Ha|]. split; [exact El|].
    rewrite El. unfold semaphore_wait. run.
    destruct (irqs s3); cbn [wait_events]; run; rewrite Hm;
      eexists; (split; [reflexivity|]); run; repeat split.
Qed.

(** [set_buffers] has no path that returns [err::busy]. *)
Lemma set_buffers_never_busy (tx rx : ptr) (n : N) (s s' : system) (rc : err) :
  set_buffers tx rx n s = Ret rc s' -> rc = inval \/ rc = ok.
Proof.
  unfold set_buffers. run.
  destruct (flag_test (m_state (dev s)) bus_locked); [|discriminate].
  destruct (is_null tx && is_null rx).
  - intros E; injection E as <- _. left; reflexivity.
  - rewrite bus_is_busy_false. run.
    intros E; injection E as <- _. right; reflexivity.
Qed.

Lemma set_buffers_fill_never_busy (n : N) (b : Z) (s s' : system) (rc : err) :
  set_buffers_fill n b s = Ret rc s' -> rc = ok.
Proof.
  unfold set_buffers_fill. run.
  destruct (flag_test (m_state (dev s)) bus_locked); [|discriminate].
  rewrite bus_is_busy_false. run.
  intros E; injection E as <- _. reflexivity.
Qed.

(** *** The atomic flag is never cleared *)

Lemma keeps_ret {A : Type} (a : A) : kept (ret a).
Proof. intros s a' s' E. injection E as _ <-. auto. Qed.

Lemma keeps_bind {A C : Type} (m : M A) (k : A -> M C) :
  kept m -> (forall a, kept (k a)) ->
  kept (bind m k).
Proof.
  intros Hm Hk s c s' E Hc.
  apply bind_ret_inv in E. destruct E as (a & s1 & E1 & E2).
  eapply Hk; [exact E2|]. eapply Hm; [exact E1|exact Hc].
Qed.

Lemma keeps_when (b : bool) (m : M unit) :
  kept m -> kept (when b m).
Proof. destruct b; [auto|]. intros _. apply keeps_ret. Qed.

Lemma keeps_update (f : generic_bus -> generic_bus) :
  (forall d : @generic_bus B H, m_cleaned (f d) = m_cleaned d) ->
  kept (update f).
Proof.
  intros Hf s a s' E Hc. injection E as _ <-. run.
  rewrite Hf. exact Hc.
Qed.

Lemma keeps_get_state : kept (get_state).
Proof. intros s a s' E. injection E as _ <-. auto. Qed.

Lemma keeps_ecl_assert (b : bool) : kept (ecl_assert b).
Proof.
  intros s a s'. unfold ecl_assert. destruct b; [|discriminate].
  intros E. injection E as _ <-. auto.
Qed.

Lemma keeps_bus_is_busy : kept (bus_is_busy).
Proof. intros s a s'. rewrite bus_is_busy_false. intros E. injection E as _ <-. auto. Qed.

Lemma keeps_test_and_set : kept (test_and_set).
Proof. intros s a s' E _. injection E as _ <-. reflexivity. Qed.

Lemma keeps_call_handler (e : event) : kept (call_handler e).
Proof.
  intros s a s'. unfold call_handler.
  destruct (m_handler (dev s)); [|discriminate].
  intros E. injection E as _ <-. auto.
Qed.

Lemma keeps_bus_call (f : B -> err * B) : kept (bus_call f).
Proof. intros s a s' E. injection E as _ <-. auto. Qed.

Lemma keeps_mutex_lock : kept (mutex_lock).
Proof.
  intros s a s'. unfold mutex_lock.
  destruct (m_lock (dev s)); [discriminate|].
  intros E. injection E as _ <-. auto.
Qed.

Create HintDb keeps.

#[local] Hint Resolve keeps_ret keeps_when keeps_get_state keeps_ecl_assert
  keeps_bus_is_busy keeps_test_and_set keeps_call_handler keeps_bus_call
  keeps_mutex_lock : keeps.

(** Breaks a member function into its primitive steps. *)
Ltac keeps :=
  repeat first
    [ apply keeps_bind; [|intros ?]
    | apply keeps_when
    | apply keeps_update; intros []; reflexivity
    | match goal with
      | |- keeps_cleaned (if ?b then _ else _) => destruct b
      | |- keeps_cleaned (match ?o with Some _ => _ | None => _ end) =>
          destruct o
      end
    | solve [auto with keeps] ].

Lemma keeps_cleanup : kept (cleanup).
Proof. unfold cleanup, cleanup_dev. keeps. Qed.

#[local] Hint Resolve keeps_cleanup : keeps.

Lemma keeps_bus_handler (e : event) : kept (bus_handler e).
Proof.
  unfold bus_handler, bus_handler_mark, bus_handler_dispatch,
    bus_handler_notify, semaphore_signal.
  keeps.
Qed.

Lemma keeps_wait_events (evs : list event) :
  kept (wait_events evs).
Proof.
  induction evs as [|e rest IH]; intros s a s'; cbn [wait_events];
    destruct (m_complete (dev s)); try discriminate.
  - intros E Hc. injection E as _ <-. exact Hc.
  - intros E Hc. injection E as _ <-. exact Hc.
  - destruct (bus_handler e (with_irqs rest s)) as [[] s1|f|] eqn:Eh;
      try discriminate.
    intros E Hc. eapply IH; [exact E|].
    eapply keeps_bus_handler; [exact Eh|exact Hc].
Qed.

Lemma keeps_semaphore_wait : kept (semaphore_wait).
Proof. intros s a s'. unfold semaphore_wait. apply keeps_wait_events. Qed.

#[local] Hint Resolve keeps_bus_handler keeps_semaphore_wait : keeps.

Lemma keeps_do_call (c : call) : kept (do_call is_ok is_error c).
Proof.
  destruct c; cbn [do_call];
    unfold init, lock, unlock, unlock_release_flag, unlock_cleanup,
      set_buffers, set_buffers_fill, xfer, xfer_prepare, xfer_finish,
      xfer_async, xfer_async_prepare, xfer_async_finish,
      mutex_unlock, semaphore_try_wait;
    keeps.
Qed.

(** Whatever the object goes through, a set atomic flag stays set: no
    member function contains a [clear]. *)
Lemma cleaned_is_sticky (cs : list call) :
  kept (do_calls is_ok is_error cs).
Proof.
  induction cs as [|c rest IH]; cbn [do_calls].
  - apply keeps_ret.
  - apply keeps_bind; [apply keeps_do_call|intros _; exact IH].
Qed.

(** ** Further properties of the member functions *)

(** [init()] hands back the result of the platform bus unchanged, after
    having registered its handler; [bus_inited] is set when that result is
    a success and is otherwise left as it was; nothing but the platform
    bus and that flag is touched. *)
Theorem init_behaviour (s : system) :
  let r := Bus_init (Bus_set_handler (m_bus (dev s))) in
  exists s',
    init is_ok s = Ret (fst r) s'
    /\ m_bus (dev s') = snd r
    /\ flag_test (m_state (dev s')) bus_inited
       = is_ok (fst r) || flag_test (m_state (dev s)) bus_inited
    /\ flag_test (m_state (dev s')) async_mode
       = flag_test (m_state (dev s)) async_mode
    /\ flag_test (m_state (dev s')) bus_locked
       = flag_test (m_state (dev s)) bus_locked
    /\ flag_test (m_state (dev s')) xfer_served
       = flag_test (m_state (dev s)) xfer_served
    /\ (is_ok (fst r) = false -> m_state (dev s') = m_state (dev s))
    /\ m_lock (dev s') = m_lock (dev s)
    /\ m_complete (dev s') = m_complete (dev s)
    /\ m_handler (dev s') = m_handler (dev s)
    /\ m_cleaned (dev s') = m_cleaned (dev s).
Proof.
  intros r. unfold init. run. fold r.
  destruct (is_ok (fst r)) eqn:Hok; run;
    (eexists; split; [reflexivity|]); run; flag_bits;
    repeat split; try reflexivity.
  discriminate.
Qed.

(** On a bus whose lock flag is clear, [unlock()], both [set_buffers],
    [xfer()] and [xfer(handler)] stop on their assertion: nothing is
    returned, not even [err::inval] for two null pointers. *)
Theorem unlocked_calls_abort
    (tx rx : ptr) (n : N) (b : Z) (h : option H) (s : system) :
  flag_test (m_state (dev s)) bus_locked = false ->
  unlock s = Fault assert_failed
  /\ set_buffers tx rx n s = Fault assert_failed
  /\ set_buffers_fill n b s = Fault assert_failed
  /\ xfer is_error s = Fault assert_failed
  /\ xfer_async is_error h s = Fault assert_failed.
Proof.
  intros Hl.
  unfold unlock, unlock_release_flag, set_buffers, set_buffers_fill,
    xfer, xfer_prepare, xfer_async, xfer_async_prepare.
  run. rewrite Hl. repeat split.
Qed.

(** [lock()] checks [bus_inited] before it touches the mutex: without the
    flag it stops on the assertion, and so does [lock()] after an [init()]
    that the platform bus refused on a bus never initialised before. *)
Theorem lock_needs_successful_init (s : system) :
  flag_test (m_state (dev s)) bus_inited = false ->
  lock s = Fault assert_failed
  /\ (is_ok (fst (Bus_init (Bus_set_handler (m_bus (dev s))))) = false ->
      (init is_ok ;; lock) s = Fault assert_failed).
Proof.
  intros Hi. split.
  - unfold lock. run. rewrite Hi. reflexivity.
  - intros Hok. unfold init, lock. run. rewrite Hok. run.
    rewrite Hi. reflexivity.
Qed.

(** *** Properties preserved step by step *)

Local Notation "'pres' P m" := (@preserves B event H P _ m)
  (at level 10, P at level 9, m at level 9, only parsing).

Lemma pres_ret (P : generic_bus -> Prop) {A : Type} (a : A) :
  pres P (ret a).
Proof. intros s a' s' E. injection E as _ <-. auto. Qed.

Lemma pres_bind (P : generic_bus -> Prop) {A C : Type}
    (m : M A) (k : A -> M C) :
  pres P m -> (forall a, pres P (k a)) -> pres P (bind m k).
Proof.
  intros Hm Hk s c s' E Hp.
  apply bind_ret_inv in E. destruct E as (a & s1 & E1 & E2).
  eapply Hk; [exact E2|]. eapply Hm; [exact E1|exact Hp].
Qed.

Lemma pres_when (P : generic_bus -> Prop) (b : bool) (m : M unit) :
  pres P m -> pres P (when b m).
Proof. destruct b; [auto|]. intros _. apply pres_ret. Qed.

Lemma pres_update (P : generic_bus -> Prop)
    (f : generic_bus -> generic_bus) :
  (forall d : @generic_bus B H, P d -> P (f d)) -> pres P (update f).
Proof. intros Hf s a s' E Hp. injection E as _ <-. apply Hf. exact Hp. Qed.

Lemma pres_get_state (P : generic_bus -> Prop) : pres P get_state.
Proof. intros s a s' E. injection E as _ <-. auto. Qed.

Lemma pres_ecl_assert (P : generic_bus -> Prop) (b : bool) :
  pres P (ecl_assert b).
Proof.
  intros s a s'. unfold ecl_assert. destruct b; [|discriminate].
  intros E. injection E as _ <-. auto.
Qed.

Lemma pres_bus_is_busy (P : generic_bus -> Prop) : pres P bus_is_busy.
Proof.
  intros s a s'. rewrite bus_is_busy_false.
  intros E. injection E as _ <-. auto.
Qed.

Lemma pres_call_handler (P : generic_bus -> Prop) (e : event) :
  pres P (call_handler e).
Proof.
  intros s a s'. unfold call_handler.
  destruct (m_handler (dev s)); [|discriminate].
  intros E. injection E as _ <-. auto.
Qed.

Lemma pres_test_and_set (P : generic_bus -> Prop) :
  (forall d : @generic_bus B H, P d -> P (with_cleaned true d)) ->
  pres P test_and_set.
Proof. intros Hf s a s' E Hp. injection E as _ <-. apply Hf. exact Hp. Qed.

Lemma pres_bus_call (P : generic_bus -> Prop) (f : B -> err * B) :
  (forall (g : B -> B) (d : @generic_bus B H), P d -> P (with_bus g d)) ->
  pres P (bus_call f).
Proof. intros Hf s a s' E Hp. injection E as _ <-. apply Hf. exact Hp. Qed.

Lemma pres_mutex_lock (P : generic_bus -> Prop) :
  (forall d : @generic_bus B H, P d -> P (with_lock true d)) ->
  pres P mutex_lock.
Proof.
  intros Hf s a s'. unfold mutex_lock.
  destruct (m_lock (dev s)); [discriminate|].
  intros E Hp. injection E as _ <-. apply Hf. exact Hp.
Qed.

(** Breaks a member function into its primitive steps and leaves, for
    each write to the object, the obligation that the property survives
    it. *)
Ltac pres_steps :=
  repeat first
    [ apply pres_bind; [|intros ?]
    | apply pres_when
    | apply pres_ret
    | apply pres_get_state
    | apply pres_ecl_assert
    | apply pres_bus_is_busy
    | apply pres_call_handler
    | apply pres_update
    | apply pres_test_and_set
    | apply pres_bus_call
    | apply pres_mutex_lock
    | match goal with
      | |- preserves _ (if ?b then _ else _) => destruct b
      | |- preserves _ (match ?o with Some _ => _ | None => _ end) =>
          destruct o
      end ].

Section StableUnderEvents.

(** A property that survives what [bus_handler] can write: the buffers,
    the atomic flag, the semaphore, the stored handler and
    [xfer_served]. *)
Variable P : @generic_bus B H -> Prop.
Hypothesis P_bus : forall g d, P d -> P (with_bus g d).
Hypothesis P_cleaned : forall d, P d -> P (with_cleaned true d).
Hypothesis P_complete : forall v d, P d -> P (with_complete v d).
Hypothesis P_handler : forall v d, P d -> P (with_handler v d).
Hypothesis P_served :
  forall d, P d -> P (with_state (fun st => flag_set st xfer_served) d).

Lemma pres_cleanup : pres P cleanup.
Proof.
  unfold cleanup, cleanup_dev. apply pres_update.
  intros d Hp. apply P_handler, P_bus, Hp.
Qed.

Lemma pres_bus_handler (e : event) : pres P (bus_handler e).
Proof.
  unfold bus_handler, bus_handler_mark, bus_handler_dispatch,
    bus_handler_notify, semaphore_signal.
  pres_steps; auto.
  intros d Hp. unfold cleanup_dev. apply P_handler, P_bus, Hp.
Qed.

Lemma pres_wait_events (evs : list event) : pres P (wait_events evs).
Proof.
  induction evs as [|e rest IH]; intros s a s'; cbn [wait_events];
    destruct (m_complete (dev s)); try discriminate.
  - intros E Hp. injection E as _ <-. apply P_complete. exact Hp.
  - intros E Hp. injection E as _ <-. apply P_complete. exact Hp.
  - destruct (bus_handler e (with_irqs rest s)) as [[] s1|f|] eqn:Eh;
      try discriminate.
    intros E Hp. eapply IH; [exact E|].
    eapply pres_bus_handler; [exact Eh|exact Hp].
Qed.

Lemma pres_semaphore_wait : pres P semaphore_wait.
Proof. intros s a s'. unfold semaphore_wait. apply pres_wait_events. Qed.

End StableUnderEvents.

(** Closes the obligation that a test of a status flag survives a write
    to the object. *)
Ltac flag_stable :=
  repeat match goal with
         | |- forall x, _ => first [ intros [? ? ? ? ? ?] | intros x ]
         end;
  cbv beta in *;
  cbn [with_state with_bus with_lock with_complete with_handler
       with_cleaned cleanup_dev m_state m_lock] in *;
  flag_bits; auto.

(** Whatever the object goes through (calls of the public member
    functions and events of the platform bus, in any order), [bus_inited]
    is never cleared. *)
Theorem bus_inited_never_cleared (cs : list call) (s s' : system) :
  do_calls is_ok is_error cs s = Ret tt s' ->
  flag_test (m_state (dev s)) bus_inited = true ->
  flag_test (m_state (dev s')) bus_inited = true.
Proof.
  set (P := fun d : @generic_bus B H =>
              flag_test (m_state d) bus_inited = true).
  assert (Hw : pres P semaphore_wait).
  { apply pres_semaphore_wait; unfold P; flag_stable. }
  assert (Hc : forall c, pres P (do_call is_ok is_error c)).
  { intros c. destruct c; cbn [do_call];
      unfold init, lock, unlock, unlock_release_flag, unlock_cleanup,
        set_buffers, set_buffers_fill, xfer, xfer_prepare, xfer_finish,
        xfer_async, xfer_async_prepare, xfer_async_finish,
        mutex_unlock, semaphore_try_wait, cleanup,
        bus_handler, bus_handler_mark, bus_handler_dispatch,
        bus_handler_notify, semaphore_signal;
      pres_steps; try exact Hw; unfold P; flag_stable. }
  revert s. induction cs as [|c rest IH]; intros s E Hp; cbn [do_calls] in E.
  - injection E as <-. exact Hp.
  - apply bind_ret_inv in E. destruct E as ([] & s1 & E1 & E2).
    apply (IH s1 E2). exact (Hc c s tt s1 E1 Hp).
Qed.

Lemma uint8_testbit (z n : Z) :
  0 <= n -> Z.testbit (uint8 z) n = (n <? 8) && Z.testbit z n.
Proof.
  intros Hn. unfold uint8. change 256 with (2 ^ 8).
  destruct (Z.ltb_spec n 8).
  - rewrite Z.mod_pow2_bits_low by lia. reflexivity.
  - rewrite Z.mod_pow2_bits_high by lia. reflexivity.
Qed.

(** Setting one flag and clearing another one commute. *)
Lemma flag_set_clear_comm (st j k : Z) :
  0 <= j -> 0 <= k -> j <> k ->
  flag_set (flag_clear st (2 ^ k)) (2 ^ j)
  = flag_clear (flag_set st (2 ^ j)) (2 ^ k).
Proof.
  intros Hj Hk Hjk. apply Z.bits_inj'. intros n Hn.
  unfold flag_set, flag_clear.
  rewrite !uint8_testbit, Z.lor_spec, Z.land_spec, !uint8_testbit,
    Z.lor_spec, Z.land_spec, Z.lnot_spec, !Z.pow2_bits_eqb by lia.
  destruct (Z.eqb_spec j n) as [Ej|Ej], (Z.eqb_spec k n) as [Ek|Ek];
    try lia;
    destruct (n <? 8), (Z.testbit st n); reflexivity.
Qed.

(** The race between [unlock()] and the terminal event of an
    event-driven transfer.  Whether the event is served before
    [unlock()], after it, or between the clearing of the lock flag and
    the cleanup decision, the outcome is the same: the user handler has
    been called once, the buffers have been reset once, the stored
    handler is empty, the atomic flag is set, the semaphore holds the
    signal and the mutex is free. *)
Theorem cleanup_race_confluent (h : H) (s : system) :
  flag_test (m_state (dev s)) bus_locked = true ->
  flag_test (m_state (dev s)) async_mode = true ->
  flag_test (m_state (dev s)) xfer_served = false ->
  m_handler (dev s) = Some h ->
  m_cleaned (dev s) = false ->
  let final :=
    mk_system
      (mk_generic_bus (Bus_reset_buffers (m_bus (dev s))) false true None true
         (flag_clear (flag_set (m_state (dev s)) xfer_served) bus_locked))
      (irqs s) ((h, Bus_xfer_done) :: invoked s) in
  (bus_handler Bus_xfer_done ;; unlock) s = Ret tt final
  /\ (unlock ;; bus_handler Bus_xfer_done) s = Ret tt final
  /\ (unlock_release_flag ;; bus_handler Bus_xfer_done ;;
      unlock_cleanup ;; mutex_unlock) s = Ret tt final.
Proof.
  intros Hl Ha Hs Hh Hc final.
  assert (Ecomm : flag_set (flag_clear (m_state (dev s)) bus_locked) xfer_served
                  = flag_clear (flag_set (m_state (dev s)) xfer_served)
                      bus_locked).
  { apply (flag_set_clear_comm (m_state (dev s)) (j := 3) (k := 2)); lia. }
  unfold unlock, bus_handler, bus_handler_mark, bus_handler_dispatch,
    bus_handler_notify, unlock_release_flag, unlock_cleanup, call_handler.
  rewrite is_last_event_done.
  repeat split;
    repeat (run; flag_bits; rewrite ?Hl, ?Ha, ?Hs, ?Hh, ?Hc);
    unfold final, with_dev, with_state, with_lock, with_complete,
      with_cleaned, with_handler, with_bus, cleanup_dev, log_call;
    cbn [dev irqs invoked m_bus m_lock m_complete m_handler m_cleaned
         m_state];
    rewrite ?Ecomm; reflexivity.
Qed.

(** Once the atomic flag is set, the event-driven path cleans up no
    more: in async mode neither [unlock()] nor [bus_handler], whatever
    the event, touches the buffers or the stored handler. *)
Theorem no_async_cleanup_once_cleaned (s : system) :
  m_cleaned (dev s) = true ->
  flag_test (m_state (dev s)) async_mode = true ->
  (forall s', unlock s = Ret tt s' ->
     m_bus (dev s') = m_bus (dev s) /\ m_handler (dev s') = m_handler (dev s))
  /\ (forall e s', bus_handler e s = Ret tt s' ->
     m_bus (dev s') = m_bus (dev s) /\ m_handler (dev s') = m_handler (dev s)).
Proof.
  intros Hc Ha. split.
  - intros s'. unfold unlock, unlock_release_flag, unlock_cleanup. run.
    destruct (flag_test (m_state (dev s)) bus_locked); [|discriminate].
    run. flag_bits. rewrite Ha.
    destruct (flag_test (m_state (dev s)) (2 ^ 3)); run; rewrite ?Hc; run;
      intros E; injection E as <-; split; reflexivity.
  - intros e s'.
    unfold bus_handler, bus_handler_mark, bus_handler_dispatch,
      bus_handler_notify, call_handler.
    destruct (is_last_event e);
      destruct (flag_test (m_state (dev s)) xfer_served) eqn:Hs;
      destruct (flag_test (m_state (dev s)) bus_locked) eqn:Hl;
      destruct (m_handler (dev s)) as [h|] eqn:Hh;
      repeat (run; flag_bits; rewrite ?Ha, ?Hs, ?Hl, ?Hh, ?Hc);
      try discriminate;
      intros E; injection E as <-; run; split; (reflexivity || assumption).
Qed.

(** On a locked bus both [set_buffers] overloads always take the binding,
    whatever transfer has been issued before: with at least one pointer
    not null, or with a fill byte, the previous buffers are reset, the new
    ones are handed to the platform bus and [err::ok] is returned; nothing
    but the platform bus is touched.  Size zero is accepted like any
    other. *)
Theorem set_buffers_always_binds
    (tx rx : ptr) (n : N) (fill_byte : Z) (s : system) :
  flag_test (m_state (dev s)) bus_locked = true ->
  (is_null tx && is_null rx = false ->
   set_buffers tx rx n s
   = Ret ok (with_dev
               (with_bus (fun b =>
                  Bus_set_rx rx n (Bus_set_tx tx n (Bus_reset_buffers b))))
               s))
  /\ set_buffers_fill n fill_byte s
     = Ret ok (with_dev
                 (with_bus (fun b =>
                    Bus_set_tx_fill n fill_byte (Bus_reset_buffers b)))
                 s).
Proof.
  intros Hl. unfold set_buffers, set_buffers_fill. split.
  - intros Hn. run. rewrite Hl, Hn. run. rewrite bus_is_busy_false.
    destruct s as [[] ? ?]. reflexivity.
  - run. rewrite Hl, bus_is_busy_false.
    destruct s as [[] ? ?]. reflexivity.
Qed.

(** Event-driven [xfer(handler)] whose [do_xfer] succeeds returns at once:
    it consumes no event, calls no handler and leaves the semaphore
    alone; it stores the handler, sets [async_mode] and clears
    [xfer_served]. *)
Theorem xfer_async_success (h : option H) (s : system) :
  flag_test (m_state (dev s)) bus_locked = true ->
  is_error (fst (Bus_do_xfer (m_bus (dev s)))) = false ->
  exists s',
    xfer_async is_error h s = Ret (fst (Bus_do_xfer (m_bus (dev s)))) s'
    /\ m_bus (dev s') = snd (Bus_do_xfer (m_bus (dev s)))
    /\ m_handler (dev s') = h
    /\ flag_test (m_state (dev s')) async_mode = true
    /\ flag_test (m_state (dev s')) xfer_served = false
    /\ flag_test (m_state (dev s')) bus_locked = true
    /\ m_complete (dev s') = m_complete (dev s)
    /\ m_cleaned (dev s') = m_cleaned (dev s)
    /\ irqs s' = irqs s
    /\ invoked s' = invoked s.
Proof.
  intros Hl He.
  unfold xfer_async, xfer_async_prepare, xfer_async_finish.
  run. rewrite Hl, bus_is_busy_false. run. rewrite He. run.
  eexists. split; [reflexivity|]. run. flag_bits.
  repeat split. assumption.
Qed.

(** Every event served in async mode reaches the stored user handler
    exactly once and unmodified, terminal or not; in blocking mode no
    handler is called. *)
Theorem events_are_forwarded (e : event) (s s' : system) :
  bus_handler e s = Ret tt s' ->
  (flag_test (m_state (dev s)) async_mode = false ->
   invoked s' = invoked s)
  /\ (flag_test (m_state (dev s)) async_mode = true ->
      exists h, m_handler (dev s) = Some h
                /\ invoked s' = (h, e) :: invoked s).
Proof.
  unfold bus_handler, bus_handler_mark, bus_handler_dispatch,
    bus_handler_notify, call_handler.
  destruct (is_last_event e);
    destruct (flag_test (m_state (dev s)) xfer_served) eqn:Hs;
    destruct (flag_test (m_state (dev s)) bus_locked) eqn:Hl;
    destruct (flag_test (m_state (dev s)) async_mode) eqn:Ha;
    destruct (m_handler (dev s)) as [h|] eqn:Hh;
    destruct (m_cleaned (dev s)) eqn:Hc;
    repeat (run; flag_bits; rewrite ?Ha, ?Hs, ?Hl, ?Hh, ?Hc);
    try discriminate;
    intros E; injection E as <-; run;
    (split; [try discriminate; reflexivity|]);
    try discriminate; intros _; exists h; split; reflexivity.
Qed.

(** An empty [handler_fn] is accepted by [xfer(handler)], but the first
    event then served in async mode ends in a call through the empty
    [std::function]. *)
Theorem empty_handler_aborts_on_event (s : system) :
  flag_test (m_state (dev s)) bus_locked = true ->
  is_error (fst (Bus_do_xfer (m_bus (dev s)))) = false ->
  exists s',
    xfer_async is_error None s = Ret (fst (Bus_do_xfer (m_bus (dev s)))) s'
    /\ forall e, bus_handler e s' = Fault bad_function_call.
Proof.
  intros Hl He.
  unfold xfer_async, xfer_async_prepare, xfer_async_finish.
  run. rewrite Hl, bus_is_busy_false. run. rewrite He. run.
  eexists. split; [reflexivity|]. intros e.
  unfold bus_handler, bus_handler_mark, bus_handler_dispatch,
    bus_handler_notify, call_handler.
  destruct (is_last_event e); repeat (run; flag_bits); reflexivity.
Qed.

(** Blocking [xfer()] on a locked bus, written out. *)
Lemma xfer_result (s : system) :
  flag_test (m_state (dev s)) bus_locked = true ->
  let r := Bus_do_xfer (m_bus (dev s)) in
  let s1 :=
    with_dev (with_bus (fun _ => snd r))
      (with_dev (with_complete false)
         (with_dev (with_state (fun st => flag_clear st xfer_served))
            (with_dev (with_state (fun st => flag_clear st async_mode)) s))) in
  xfer is_error s
  = if is_error (fst r)
    then Ret (fst r)
           (with_dev (with_state (fun st => flag_set st xfer_served)) s1)
    else match events_after_done (irqs s) with
         | Some post =>
             Ret (fst r)
               (with_irqs post
                  (with_dev (with_complete false)
                     (with_dev (with_state (fun st => flag_set st xfer_served))
                        s1)))
         | None => Blocked
         end.
Proof.
  intros Hl r s1. unfold xfer, xfer_prepare, xfer_finish, semaphore_wait.
  run. rewrite Hl, bus_is_busy_false. run. fold r.
  destruct (is_error (fst r)); run; [reflexivity|].
  rewrite wait_events_blocking; run; flag_bits; try reflexivity.
  destruct (events_after_done (irqs s)); reflexivity.
Qed.

(** What blocking [xfer()] leaves behind. *)
Lemma xfer_state (rc : err) (s s' : system) :
  xfer is_error s = Ret rc s' ->
  rc = fst (Bus_do_xfer (m_bus (dev s)))
  /\ flag_test (m_state (dev s')) xfer_served = true
  /\ flag_test (m_state (dev s')) async_mode = false
  /\ flag_test (m_state (dev s')) bus_locked = true
  /\ m_complete (dev s') = false
  /\ invoked s' = invoked s
  /\ m_handler (dev s') = m_handler (dev s)
  /\ m_cleaned (dev s') = m_cleaned (dev s).
Proof.
  destruct (flag_test (m_state (dev s)) bus_locked) eqn:Hl.
  - rewrite (xfer_result s Hl).
    destruct (is_error (fst (Bus_do_xfer (m_bus (dev s))))).
    + intros E. injection E as <- <-. run. flag_bits. repeat split.
      assumption.
    + destruct (events_after_done (irqs s)); [|discriminate].
      intros E. injection E as <- <-. run. flag_bits. repeat split.
      assumption.
  - unfold xfer, xfer_prepare. run. rewrite Hl. discriminate.
Qed.

(** Whenever blocking [xfer()] returns, on success or on error, it
    returns the result of [do_xfer], with [xfer_served] set, [async_mode]
    clear and the semaphore empty; no user handler has been called, and
    the stored handler and the atomic flag are as before. *)
Theorem xfer_blocking_postcondition (rc : err) (s s' : system) :
  xfer is_error s = Ret rc s' ->
  rc = fst (Bus_do_xfer (m_bus (dev s)))
  /\ flag_test (m_state (dev s')) xfer_served = true
  /\ flag_test (m_state (dev s')) async_mode = false
  /\ flag_test (m_state (dev s')) bus_locked = true
  /\ m_complete (dev s') = false
  /\ invoked s' = invoked s
  /\ m_handler (dev s') = m_handler (dev s)
  /\ m_cleaned (dev s') = m_cleaned (dev s).
Proof. apply xfer_state. Qed.

(** A blocking transfer followed by [unlock()] always ends cleaned up,
    whatever [do_xfer] returned: the buffers are reset, the stored handler
    is empty, the lock flag is clear and the mutex is free. *)
Theorem blocking_cycle_cleans_up (s s' : system) :
  (xfer is_error ;; unlock) s = Ret tt s' ->
  m_bus (dev s') = Bus_reset_buffers (snd (Bus_do_xfer (m_bus (dev s))))
  /\ m_handler (dev s') = None
  /\ flag_test (m_state (dev s')) bus_locked = false
  /\ m_lock (dev s') = false.
Proof.
  intros E. apply bind_ret_inv in E. destruct E as (rc & s1 & E1 & E2).
  assert (Hb : m_bus (dev s1) = snd (Bus_do_xfer (m_bus (dev s)))).
  { destruct (flag_test (m_state (dev s)) bus_locked) eqn:Hl.
    - rewrite (xfer_result s Hl) in E1.
      destruct (is_error (fst (Bus_do_xfer (m_bus (dev s))))).
      + injection E1 as _ <-. reflexivity.
      + destruct (events_after_done (irqs s)); [|discriminate].
        injection E1 as _ <-. reflexivity.
    - revert E1. unfold xfer, xfer_prepare. run. rewrite Hl. discriminate. }
  apply xfer_state in E1.
  destruct E1 as (_ & Hs & Ha & Hl & _).
  assert (Ha' : flag_test (flag_clear (m_state (dev s1)) bus_locked)
                  async_mode = false)
    by (flag_bits; assumption).
  assert (Hl' : flag_test (flag_clear (m_state (dev s1)) bus_locked)
                  bus_locked = false)
    by (flag_bits; reflexivity).
  revert E2. unfold unlock, unlock_release_flag, unlock_cleanup. run.
  rewrite Hl. run. rewrite Ha'. run.
  intros E. injection E as <-. run. rewrite Hb. repeat split. exact Hl'.
Qed.

(** A [lock()] that overtakes the terminal event.  After an event-driven
    issue, [unlock()] leaves the cleanup to the handler; if [lock()] is
    called again before the terminal event, that event is served while
    the lock flag is set again, so nobody cleans up: [lock()] returns with
    the old buffers still bound and the old handler still stored. *)
Theorem lock_overtakes_terminal_event
    (h : H) (rest : list event) (s : system) :
  flag_test (m_state (dev s)) bus_inited = true ->
  flag_test (m_state (dev s)) bus_locked = true ->
  flag_test (m_state (dev s)) async_mode = true ->
  flag_test (m_state (dev s)) xfer_served = false ->
  m_complete (dev s) = false ->
  m_handler (dev s) = Some h ->
  irqs s = Bus_xfer_done :: rest ->
  (unlock ;; lock) s
  = Ret tt
      (mk_system
         (mk_generic_bus (m_bus (dev s)) true false (Some h)
            (m_cleaned (dev s))
            (flag_set
               (flag_set (flag_clear (m_state (dev s)) bus_locked) bus_locked)
               xfer_served))
         rest ((h, Bus_xfer_done) :: invoked s)).
Proof.
  intros Hi Hl Ha Hs Hc Hh Hq.
  unfold unlock, unlock_release_flag, unlock_cleanup, lock, mutex_lock,
    semaphore_wait.
  repeat (run; flag_bits; rewrite ?Hi, ?Hl, ?Ha, ?Hs, ?Hc, ?Hh, ?Hq).
  cbn [wait_events]. run. rewrite Hc.
  unfold bus_handler, bus_handler_mark, bus_handler_dispatch,
    bus_handler_notify, call_handler.
  rewrite is_last_event_done.
  repeat (run; flag_bits; rewrite ?Hi, ?Hl, ?Ha, ?Hs, ?Hc, ?Hh, ?Hq).
  destruct rest; cbn [wait_events]; run; destruct s as [[] ? ?];
    cbn [dev m_handler m_complete irqs] in Hh, Hc, Hq; subst;
    reflexivity.
Qed.

(** [lock()] and [unlock()] around nothing, on an initialised bus in
    blocking mode whose mutex is free: both return, the buffers are
    reset and the stored handler emptied, and everything else ends as it
    began, the lock flag clear. *)
Theorem lock_unlock_round_trip (s : system) :
  flag_test (m_state (dev s)) bus_inited = true ->
  flag_test (m_state (dev s)) async_mode = false ->
  m_lock (dev s) = false ->
  exists s',
    (lock ;; unlock) s = Ret tt s'
    /\ m_bus (dev s') = Bus_reset_buffers (m_bus (dev s))
    /\ m_handler (dev s') = None
    /\ m_lock (dev s') = false
    /\ flag_test (m_state (dev s')) bus_locked = false
    /\ flag_test (m_state (dev s')) bus_inited = true
    /\ flag_test (m_state (dev s')) async_mode = false
    /\ flag_test (m_state (dev s')) xfer_served
       = flag_test (m_state (dev s)) xfer_served
    /\ m_complete (dev s') = m_complete (dev s)
    /\ m_cleaned (dev s') = m_cleaned (dev s)
    /\ irqs s' = irqs s
    /\ invoked s' = invoked s.
Proof.
  intros Hi Ha Hk.
  unfold lock, unlock, unlock_release_flag, unlock_cleanup, mutex_lock.
  repeat (run; flag_bits; rewrite ?Hi, ?Ha, ?Hk).
  eexists. split; [reflexivity|]. run. flag_bits. repeat split; assumption.
Qed.

(** Whenever [lock()] returns, the mutex is held. *)
Lemma lock_holds_mutex (s s' : system) :
  lock s = Ret tt s' -> m_lock (dev s') = true.
Proof.
  unfold lock, mutex_lock. run.
  destruct (flag_test (m_state (dev s)) bus_inited); [|discriminate]. run.
  destruct (m_lock (dev s)); [discriminate|]. run.
  destruct (flag_test _ async_mode); run.
  - intros E.
    assert (Hq : pres (fun d => m_lock d = true) semaphore_wait).
    { apply pres_semaphore_wait; intros; destruct d; assumption. }
    exact (Hq _ _ _ E eq_refl).
  - intros E. injection E as <-. reflexivity.
Qed.

(** The lock flag is only ever set while the mutex is held: the property
    survives every call of a public member function and every event of
    the platform bus. *)
Theorem lock_flag_implies_mutex (cs : list call) (s s' : system) :
  do_calls is_ok is_error cs s = Ret tt s' ->
  (flag_test (m_state (dev s)) bus_locked = true -> m_lock (dev s) = true) ->
  flag_test (m_state (dev s')) bus_locked = true -> m_lock (dev s') = true.
Proof.
  set (P := fun d : @generic_bus B H =>
              flag_test (m_state d) bus_locked = true -> m_lock d = true).
  assert (Hw : pres P semaphore_wait).
  { apply pres_semaphore_wait; unfold P; flag_stable. }
  assert (Hc : forall c, pres P (do_call is_ok is_error c)).
  { intros c. destruct c; cbn [do_call].
    - unfold init. pres_steps; unfold P; flag_stable.
    - intros s0 [] s1 E _ _. apply (lock_holds_mutex s0). exact E.
    - intros s0 [] s1 E _ Hl. apply unlock_state in E.
      destruct E as (E & _). rewrite E in Hl. revert Hl.
      flag_bits. discriminate.
    - unfold set_buffers. pres_steps; unfold P; flag_stable.
    - unfold set_buffers_fill. pres_steps; unfold P; flag_stable.
    - unfold xfer, xfer_prepare, xfer_finish, semaphore_try_wait.
      pres_steps; try exact Hw; unfold P; flag_stable.
    - unfold xfer_async, xfer_async_prepare, xfer_async_finish.
      pres_steps; unfold P; flag_stable.
    - apply pres_bus_handler; unfold P; flag_stable. }
  revert s. induction cs as [|c rest IH]; intros s E Hp; cbn [do_calls] in E.
  - injection E as <-. exact Hp.
  - apply bind_ret_inv in E. destruct E as ([] & s1 & E1 & E2).
    apply (IH s1 E2). exact (Hc c s tt s1 E1 Hp).
Qed.

(** The four status flags are separate bits of the status byte: setting
    or clearing one of them, with the promotion to [int] and the
    truncation back to [uint8_t], changes the test of that flag and of no
    other. *)
Theorem status_flags_independent (st f g : Z) :
  In f [bus_inited; async_mode; bus_locked; xfer_served] ->
  In g [bus_inited; async_mode; bus_locked; xfer_served] ->
  flag_test (flag_set st f) g = flag_test st g || (f =? g)
  /\ flag_test (flag_clear st f) g = flag_test st g && negb (f =? g).
Proof.
  intros Hf Hg.
  assert (Ef : exists j, 0 <= j < 4 /\ f = 2 ^ j).
  { cbn [In] in Hf. destruct Hf as [<-|[<-|[<-|[<-|[]]]]];
      [exists 0|exists 1|exists 2|exists 3]; split; (lia || reflexivity). }
  assert (Eg : exists k, 0 <= k < 4 /\ g = 2 ^ k).
  { cbn [In] in Hg. destruct Hg as [<-|[<-|[<-|[<-|[]]]]];
      [exists 0|exists 1|exists 2|exists 3]; split; (lia || reflexivity). }
  destruct Ef as (j & Hj & ->). destruct Eg as (k & Hk & ->).
  rewrite flag_test_set, flag_test_clear by lia.
  assert (E : (2 ^ j =? 2 ^ k) = (j =? k)).
  { destruct (Z.eqb_spec j k) as [->|Hne].
    - apply Z.eqb_refl.
    - apply Z.eqb_neq. intros Hp. apply Hne.
      apply (Z.pow_inj_r 2); lia. }
  rewrite E. split; reflexivity.
Qed.

(** Whatever the object goes through (calls of the public member
    functions and events of the platform bus, in any order), the atomic
    flag, once set, is never cleared. *)
Theorem atomic_flag_never_cleared (cs : list call) (s s' : system) :
  do_calls is_ok is_error cs s = Ret tt s' ->
  m_cleaned (dev s) = true ->
  m_cleaned (dev s') = true.
Proof. apply cleaned_is_sticky. Qed.

(** With no event raised before [do_xfer] returns, the two transfer
    functions are the plain ones. *)
Lemma xfer_during_nil (h : option H) (s : system) :
  xfer_during is_error [] s = xfer is_error s
  /\ xfer_async_during is_error h [] s = xfer_async is_error h s.
Proof.
  unfold xfer_during, xfer_async_during, xfer, xfer_async. cbn [serve].
  unfold bind. split.
  - destruct (xfer_prepare s) as [[e|] s1|f|]; reflexivity.
  - destruct (xfer_async_prepare h s) as [[e|] s1|f|]; reflexivity.
Qed.

End GenericBusFacts.

(** ** Runs on the simulated platform bus *)

Import Sim.

(** [outstanding] is what [init], [lock], [set_buffers] and a successful
    [xfer(handler)] make of a fresh object. *)
Lemma outstanding_reachable :
  (init sim_is_ok ;;
   lock ;;
   set_buffers (Some 4096%N) (Some 8192%N) 2 ;;
   xfer_async sim_is_error (Some 11%nat)) fresh
  = Ret ok outstanding.
Proof. vm_compute. reflexivity. Qed.

(** [served_blocking] is what [init], [lock], [set_buffers] and a blocking
    [xfer()] woken by the terminal event make of a fresh object. *)
Lemma served_blocking_reachable :
  (init sim_is_ok ;;
   lock ;;
   set_buffers (Some 4096%N) (Some 8192%N) 2 ;;
   xfer sim_is_error) (with_irqs [ev_xfer_done] fresh)
  = Ret ok served_blocking.
Proof. vm_compute. reflexivity. Qed.

(** [C1] On a state with an event-driven transfer outstanding
    ([async_mode] set, [xfer_served] clear) [bus_is_busy()] answers false,
    and blocking [xfer()] does not return [err::busy]: it issues a new
    transfer and sleeps, returning [err::ok] once a terminal event
    arrives; event-driven [xfer(handler)] is accepted as well. *)
Theorem bus_is_busy_misses_outstanding_transfer :
  async_outstanding (m_state (dev outstanding)) = true
  /\ bus_is_busy outstanding = Ret false outstanding
  /\ xfer sim_is_error outstanding = Blocked
  /\ xfer sim_is_error (with_irqs [ev_xfer_done] outstanding)
     = Ret ok outstanding_after_xfer
  /\ xfer_async sim_is_error (Some 12%nat) outstanding
     = Ret ok (with_dev (with_handler (Some 12%nat)) outstanding).
Proof. vm_compute. repeat split. Qed.

(** [C2] After one complete event-driven cycle the atomic flag is set.
    Issuing the next event-driven transfer leaves it set, and in that
    second cycle neither [unlock()] nor [bus_handler], in either order,
    runs cleanup: the buffers stay bound and the handler stays stored. *)
Theorem cleanup_flag_never_reset :
  (init sim_is_ok ;; async_cycle 11) fresh = Ret tt after_first_cycle
  /\ m_cleaned (dev after_first_cycle) = true
  /\ (lock ;;
      set_buffers (Some 4096%N) (Some 8192%N) 2 ;;
      xfer_async sim_is_error (Some 12%nat)) after_first_cycle
     = Ret ok second_issued
  /\ m_cleaned (dev second_issued) = true
  /\ async_cycle 12 after_first_cycle = Ret tt after_second_cycle
  /\ async_cycle_late_event 12 after_first_cycle = Ret tt after_second_cycle
  /\ m_bus (dev after_second_cycle) = bound ok
  /\ m_handler (dev after_second_cycle) = Some 12%nat.
Proof. vm_compute. repeat split. Qed.

(** After a completed blocking transfer
    [xfer_served] is set; event-driven [xfer(handler)] then reaches
    [do_xfer] with the flag still set. *)
Lemma xfer_async_calls_do_xfer_with_served_set :
  flag_test (m_state (dev served_blocking)) bus_locked = true
  /\ xfer_async_prepare (Some 11%nat) served_blocking
     = Ret None served_then_async
  /\ flag_test (m_state (dev served_then_async)) xfer_served = true.
Proof. vm_compute. repeat split. Qed.

(** [C4] With an event-driven transfer outstanding both overloads of
    [set_buffers] return [err::ok] and rebind the buffers of the platform
    bus. *)
Theorem set_buffers_accepted_while_outstanding :
  async_outstanding (m_state (dev outstanding)) = true
  /\ set_buffers (Some 12288%N) None 4 outstanding = Ret ok outstanding_rebound
  /\ m_bus (dev outstanding_rebound) <> m_bus (dev outstanding)
  /\ set_buffers_fill 4 255 outstanding = Ret ok outstanding_filled
  /\ m_bus (dev outstanding_filled) <> m_bus (dev outstanding).
Proof.
  vm_compute. repeat split; discriminate.
Qed.

(** The terminal event arrives between the two halves of [unlock()]: the
    handler finds the lock flag clear and cleans up, the second half
    finds the atomic flag set and does not clean up again. *)
Lemma unlock_overtaken_by_terminal_event :
  (unlock_release_flag ;;
   bus_handler ev_xfer_done ;;
   unlock_cleanup ;;
   mutex_unlock) outstanding
  = Ret tt after_first_cycle.
Proof. vm_compute. reflexivity. Qed.

(** *** The general statements at work *)

(** A locked bus with bound buffers refuses two null pointers. *)
Lemma set_buffers_null_is_inval_witness :
  set_buffers None None 7 (ready ok) = Ret inval (ready ok)
  /\ (forall s', set_buffers None None 7 (ready ok) = Ret inval s' ->
       m_bus (dev s') = m_bus (dev (ready ok))).
Proof.
  apply (set_buffers_null_is_inval 7 (ready ok)).
  reflexivity.
Defined.

(** A driver that answers [do_xfer] with code 5 leaves the bus ready. *)
Lemma xfer_async_transport_error_witness :
  exists s',
    xfer_async sim_is_error (Some 11%nat) (ready (other 5)) = Ret (other 5) s'
    /\ flag_test (m_state (dev s')) xfer_served = true
    /\ flag_test (m_state (dev s')) async_mode = false
    /\ flag_test (m_state (dev s')) bus_locked = true
    /\ bus_is_busy s' = Ret false s'
    /\ async_outstanding (m_state (dev s')) = false.
Proof.
  assert (Hl : flag_test (m_state (dev (ready (other 5)))) bus_locked = true)
    by reflexivity.
  assert (He : sim_is_error
                 (fst (Bus_do_xfer (m_bus (dev (ready (other 5)))))) = true)
    by reflexivity.
  exact (xfer_async_transport_error sim_is_error (Some 11%nat)
           (ready (other 5)) Hl He).
Defined.

(** The reset points of [xfer_served] after a completed blocking transfer. *)
Lemma xfer_served_reset_points_witness :
  (exists s1,
     xfer_prepare served_blocking = Ret None s1
     /\ flag_test (m_state (dev s1)) xfer_served = false
     /\ xfer sim_is_error served_blocking
        = (r <- bus_call Bus_do_xfer ;; xfer_finish sim_is_error r) s1)
  /\ (exists s1,
     xfer_async_prepare (Some 11%nat) served_blocking = Ret None s1
     /\ flag_test (m_state (dev s1)) xfer_served
        = flag_test (m_state (dev served_blocking)) xfer_served
     /\ xfer_async sim_is_error (Some 11%nat) served_blocking
        = (r <- bus_call Bus_do_xfer ;; xfer_async_finish sim_is_error r) s1)
  /\ (exists s2,
     xfer_async_finish sim_is_error ok served_blocking = Ret ok s2
     /\ flag_test (m_state (dev s2)) xfer_served = sim_is_error ok).
Proof.
  apply (xfer_served_reset_points sim_is_error (Some 11%nat) ok
           served_blocking).
  reflexivity.
Defined.

(** [unlock()] in blocking mode, with an event-driven transfer
    outstanding, and with an event-driven transfer served. *)
Lemma unlock_behaviour_witness :
  unlock (ready ok)
  = Ret tt (mk_system (mk_generic_bus (unbound ok) false false None false 1)
              [] [])
  /\ unlock outstanding
     = Ret tt (mk_system
                 (mk_generic_bus (bound ok) false false (Some 11%nat) false 3)
                 [] [])
  /\ unlock outstanding_served
     = Ret tt (mk_system (mk_generic_bus (unbound ok) false true None true 11)
                 [] [(11%nat, ev_xfer_done)]).
Proof.
  assert (H1 : flag_test (m_state (dev (ready ok))) bus_locked = true)
    by reflexivity.
  assert (H2 : flag_test (m_state (dev outstanding)) bus_locked = true)
    by reflexivity.
  assert (H3 : flag_test (m_state (dev outstanding_served)) bus_locked = true)
    by reflexivity.
  destruct (unlock_behaviour (ready ok) H1) as (_ & _ & _ & _ & E1).
  destruct (unlock_behaviour outstanding H2) as (_ & _ & _ & _ & E2).
  destruct (unlock_behaviour outstanding_served H3) as (_ & _ & _ & _ & E3).
  split; [exact E1|]. split; [exact E2|exact E3].
Defined.

(** A repeated terminal event aborts; a first one marks, dispatches and
    signals; a non-terminal one only reaches the user handler. *)
Lemma bus_handler_terminal_protocol_witness :
  bus_handler ev_xfer_done outstanding_served = Fault assert_failed
  /\ (flag_test (m_state (dev outstanding_served)) xfer_served = true
      /\ m_complete (dev outstanding_served) = true
      /\ exists s2,
           (bus_handler_mark true ;; bus_handler_dispatch ev_xfer_done true)
             outstanding
           = Ret tt s2
           /\ m_complete (dev s2) = m_complete (dev outstanding)
           /\ outstanding_served = with_dev (with_complete true) s2)
  /\ (exists s', bus_handler ev_xfer_done outstanding = Ret tt s')
  /\ (m_state (dev (log_call 11%nat ev_half_done outstanding))
      = m_state (dev outstanding)
      /\ m_complete (dev (log_call 11%nat ev_half_done outstanding))
         = m_complete (dev outstanding)).
Proof.
  destruct (bus_handler_terminal_protocol ev_xfer_done outstanding_served)
    as (P1 & _).
  destruct (bus_handler_terminal_protocol ev_xfer_done outstanding)
    as (_ & P2 & P3 & _).
  destruct (bus_handler_terminal_protocol ev_half_done outstanding)
    as (_ & _ & _ & P4).
  split; [|split; [|split]].
  - apply P1; reflexivity.
  - apply (P2 eq_refl); reflexivity.
  - apply P3.
    + left. reflexivity.
    + right. discriminate.
  - apply P4.
    + discriminate.
    + reflexivity.
Defined.

(** Blocking [xfer()] on a failing driver, with no event to come, and
    with the terminal event second in line. *)
Lemma xfer_blocking_behaviour_witness :
  (exists s',
     xfer sim_is_error (ready (other 5)) = Ret (other 5) s'
     /\ flag_test (m_state (dev s')) xfer_served = true
     /\ flag_test (m_state (dev s')) async_mode = false
     /\ irqs s' = []
     /\ invoked s' = [])
  /\ xfer sim_is_error (ready ok) = Blocked
  /\ (exists s',
        xfer sim_is_error
          (with_irqs [ev_half_done; ev_xfer_done; ev_error] (ready ok))
        = Ret ok s'
        /\ irqs s' = [ev_error]
        /\ flag_test (m_state (dev s')) xfer_served = true
        /\ flag_test (m_state (dev s')) async_mode = false
        /\ m_complete (dev s') = false).
Proof.
  assert (H1 : flag_test (m_state (dev (ready (other 5)))) bus_locked = true)
    by reflexivity.
  assert (H2 : flag_test (m_state (dev (ready ok))) bus_locked = true)
    by reflexivity.
  assert (H3 : flag_test
                 (m_state
                    (dev (with_irqs [ev_half_done; ev_xfer_done; ev_error]
                            (ready ok)))) bus_locked = true)
    by reflexivity.
  destruct (xfer_blocking_behaviour sim_is_error (ready (other 5)) H1)
    as (_ & PE & _).
  destruct (xfer_blocking_behaviour sim_is_error (ready ok) H2)
    as (_ & _ & PB).
  destruct (xfer_blocking_behaviour sim_is_error
              (with_irqs [ev_half_done; ev_xfer_done; ev_error] (ready ok)) H3)
    as (_ & _ & PS).
  split; [|split].
  - apply PE. reflexivity.
  - apply PB.
    + reflexivity.
    + simpl. intros [].
  - apply (proj2 (PS eq_refl) [ev_half_done] [ev_error]).
    + reflexivity.
    + simpl. intros [E|[]]. discriminate E.
Defined.

(** [cleanup()] on a served state, and the [lock()] that follows a first
    event-driven cycle. *)
Lemma cleanup_frame_witness :
  (exists s',
     cleanup outstanding_served = Ret tt s'
     /\ m_bus (dev s') = Bus_reset_buffers (m_bus (dev outstanding_served))
     /\ m_handler (dev s') = None
     /\ m_state (dev s') = m_state (dev outstanding_served)
     /\ m_cleaned (dev s') = m_cleaned (dev outstanding_served)
     /\ m_lock (dev s') = m_lock (dev outstanding_served)
     /\ m_complete (dev s') = m_complete (dev outstanding_served))
  /\ (flag_test (m_state (dev after_first_cycle)) async_mode = true
      /\ lock after_first_cycle
         = semaphore_wait
             (with_dev (with_state (fun st => flag_set st bus_locked))
                (with_dev (with_lock true) after_first_cycle))
      /\ exists s4,
           lock after_first_cycle = Ret tt s4
           /\ m_complete (dev after_first_cycle) = true
           /\ m_complete (dev s4) = false
           /\ irqs s4 = irqs after_first_cycle).
Proof.
  destruct (cleanup_frame sim_is_error outstanding_served) as (F & _).
  destruct (cleanup_frame sim_is_error (ready ok)) as (_ & C).
  split; [exact F|].
  apply (C (Some 11%nat) ok outstanding after_first_cycle).
  - reflexivity.
  - reflexivity.
  - reflexivity.
  - left. reflexivity.
Defined.

(** *** The further properties at work *)

(** The second event-driven cycle as a history. *)
Lemma second_cycle_history :
  do_calls sim_is_ok sim_is_error
    [c_lock; c_set_buffers (Some 4096%N) (Some 8192%N) 2;
     c_xfer_async (Some 12%nat); c_event ev_xfer_done; c_unlock]
    after_first_cycle
  = Ret tt after_second_cycle.
Proof. vm_compute. reflexivity. Qed.

(** The calls that lead a fresh object to an outstanding transfer. *)
Lemma outstanding_history :
  do_calls sim_is_ok sim_is_error
    [c_init; c_lock; c_set_buffers (Some 4096%N) (Some 8192%N) 2;
     c_xfer_async (Some 11%nat)]
    fresh
  = Ret tt outstanding.
Proof. vm_compute. reflexivity. Qed.

(** An unlocked bus refuses everything but [lock()]. *)
Lemma unlocked_calls_abort_witness :
  unlock after_first_cycle = Fault assert_failed
  /\ set_buffers None None 2 after_first_cycle = Fault assert_failed
  /\ set_buffers_fill 2 255 after_first_cycle = Fault assert_failed
  /\ xfer sim_is_error after_first_cycle = Fault assert_failed
  /\ xfer_async sim_is_error (Some 12%nat) after_first_cycle
     = Fault assert_failed.
Proof.
  apply (unlocked_calls_abort sim_is_error None None 2 255 (Some 12%nat)
           after_first_cycle).
  reflexivity.
Defined.

(** [lock()] on a fresh object, and after an [init()] refused with
    code 5. *)
Lemma lock_needs_successful_init_witness :
  lock (PB := sim_platform_init_rc)
    (mk_system (generic_bus_new (H := nat) (unbound (other 5))) [] [])
  = Fault assert_failed
  /\ (init (PB := sim_platform_init_rc) sim_is_ok ;;
      lock (PB := sim_platform_init_rc))
       (mk_system (generic_bus_new (H := nat) (unbound (other 5))) [] [])
     = Fault assert_failed.
Proof.
  assert (Hi : flag_test
                 (m_state
                    (dev (mk_system
                            (generic_bus_new (H := nat) (unbound (other 5)))
                            (@nil sim_event) [])))
                 bus_inited = false)
    by reflexivity.
  destruct (lock_needs_successful_init (PB := sim_platform_init_rc)
              sim_is_ok _ Hi) as (E1 & E2).
  split; [exact E1|]. apply E2. reflexivity.
Defined.

(** [bus_inited] survives the second event-driven cycle. *)
Lemma bus_inited_never_cleared_witness :
  flag_test (m_state (dev after_second_cycle)) bus_inited = true.
Proof.
  apply (bus_inited_never_cleared sim_is_ok sim_is_error
           [c_lock; c_set_buffers (Some 4096%N) (Some 8192%N) 2;
            c_xfer_async (Some 12%nat); c_event ev_xfer_done; c_unlock]
           after_first_cycle).
  - vm_compute. reflexivity.
  - reflexivity.
Defined.

(** The atomic flag survives the second event-driven cycle. *)
Lemma atomic_flag_never_cleared_witness :
  m_cleaned (dev after_second_cycle) = true.
Proof.
  apply (atomic_flag_never_cleared sim_is_ok sim_is_error
           [c_lock; c_set_buffers (Some 4096%N) (Some 8192%N) 2;
            c_xfer_async (Some 12%nat); c_event ev_xfer_done; c_unlock]
           after_first_cycle).
  - vm_compute. reflexivity.
  - reflexivity.
Defined.

(** In the second cycle neither [unlock()] nor the terminal event changes
    the buffers or the handler. *)
Lemma no_async_cleanup_once_cleaned_witness :
  (m_bus (dev (mk_system
                 (mk_generic_bus (bound ok) false false (Some 12%nat) true 3)
                 [] [(11%nat, ev_xfer_done)]))
   = m_bus (dev second_issued)
   /\ m_handler (dev (mk_system
                       (mk_generic_bus (bound ok) false false (Some 12%nat)
                          true 3)
                       [] [(11%nat, ev_xfer_done)]))
      = m_handler (dev second_issued))
  /\ (m_bus (dev (mk_system
                    (mk_generic_bus (bound ok) true true (Some 12%nat) true 15)
                    [] [(12%nat, ev_xfer_done); (11%nat, ev_xfer_done)]))
      = m_bus (dev second_issued)
      /\ m_handler (dev (mk_system
                          (mk_generic_bus (bound ok) true true (Some 12%nat)
                             true 15)
                          [] [(12%nat, ev_xfer_done); (11%nat, ev_xfer_done)]))
         = m_handler (dev second_issued)).
Proof.
  assert (Hc : m_cleaned (dev second_issued) = true) by reflexivity.
  assert (Ha : flag_test (m_state (dev second_issued)) async_mode = true)
    by reflexivity.
  destruct (no_async_cleanup_once_cleaned second_issued Hc Ha) as (U & E).
  split.
  - apply U. reflexivity.
  - apply (E ev_xfer_done). reflexivity.
Defined.

(** The three orders of [unlock()] and terminal event on an outstanding
    transfer. *)
Lemma cleanup_race_confluent_witness :
  (bus_handler ev_xfer_done ;; unlock) outstanding = Ret tt after_first_cycle
  /\ (unlock ;; bus_handler ev_xfer_done) outstanding
     = Ret tt after_first_cycle
  /\ (unlock_release_flag ;; bus_handler ev_xfer_done ;;
      unlock_cleanup ;; mutex_unlock) outstanding
     = Ret tt after_first_cycle.
Proof.
  exact (cleanup_race_confluent (h := 11%nat) outstanding
           eq_refl eq_refl eq_refl eq_refl eq_refl).
Defined.

(** Both overloads rebind a locked bus. *)
Lemma set_buffers_always_binds_witness :
  set_buffers (Some 12288%N) None 4 outstanding = Ret ok outstanding_rebound
  /\ set_buffers_fill 4 255 outstanding = Ret ok outstanding_filled.
Proof.
  assert (Hl : flag_test (m_state (dev outstanding)) bus_locked = true)
    by reflexivity.
  destruct (set_buffers_always_binds (Some 12288%N) None 4 255 outstanding Hl)
    as (E1 & E2).
  split; [|exact E2]. apply E1. reflexivity.
Defined.

(** A successful event-driven issue on a ready bus. *)
Lemma xfer_async_success_witness :
  exists s',
    xfer_async sim_is_error (Some 11%nat) (ready ok) = Ret ok s'
    /\ m_bus (dev s') = bound ok
    /\ m_handler (dev s') = Some 11%nat
    /\ flag_test (m_state (dev s')) async_mode = true
    /\ flag_test (m_state (dev s')) xfer_served = false
    /\ flag_test (m_state (dev s')) bus_locked = true
    /\ m_complete (dev s') = false
    /\ m_cleaned (dev s') = false
    /\ irqs s' = []
    /\ invoked s' = [].
Proof.
  assert (Hl : flag_test (m_state (dev (ready ok))) bus_locked = true)
    by reflexivity.
  assert (He : sim_is_error (fst (Bus_do_xfer (m_bus (dev (ready ok)))))
               = false)
    by reflexivity.
  exact (xfer_async_success sim_is_error (Some 11%nat) (ready ok) Hl He).
Defined.

(** A half-done event reaches handler 11 in async mode and nobody in
    blocking mode. *)
Lemma events_are_forwarded_witness :
  invoked (ready ok) = invoked (ready ok)
  /\ exists h,
       m_handler (dev outstanding) = Some h
       /\ invoked (log_call 11%nat ev_half_done outstanding)
          = (h, ev_half_done) :: invoked outstanding.
Proof.
  assert (E1 : bus_handler ev_half_done (ready ok) = Ret tt (ready ok))
    by reflexivity.
  assert (E2 : bus_handler ev_half_done outstanding
               = Ret tt (log_call 11%nat ev_half_done outstanding))
    by reflexivity.
  split.
  - apply (events_are_forwarded ev_half_done (ready ok) E1). reflexivity.
  - apply (events_are_forwarded ev_half_done outstanding E2). reflexivity.
Defined.

(** An empty handler on a ready bus. *)
Lemma empty_handler_aborts_on_event_witness :
  exists s',
    xfer_async sim_is_error None (ready ok) = Ret ok s'
    /\ forall e, bus_handler e s' = Fault bad_function_call.
Proof.
  assert (Hl : flag_test (m_state (dev (ready ok))) bus_locked = true)
    by reflexivity.
  assert (He : sim_is_error (fst (Bus_do_xfer (m_bus (dev (ready ok)))))
               = false)
    by reflexivity.
  exact (empty_handler_aborts_on_event sim_is_error (ready ok) Hl He).
Defined.

(** A blocking transfer woken by the terminal event. *)
Lemma xfer_blocking_postcondition_witness :
  ok = fst (Bus_do_xfer (m_bus (dev (with_irqs [ev_xfer_done] (ready ok)))))
  /\ flag_test (m_state (dev served_blocking)) xfer_served = true
  /\ flag_test (m_state (dev served_blocking)) async_mode = false
  /\ flag_test (m_state (dev served_blocking)) bus_locked = true
  /\ m_complete (dev served_blocking) = false
  /\ invoked served_blocking = invoked (with_irqs [ev_xfer_done] (ready ok))
  /\ m_handler (dev served_blocking)
     = m_handler (dev (with_irqs [ev_xfer_done] (ready ok)))
  /\ m_cleaned (dev served_blocking)
     = m_cleaned (dev (with_irqs [ev_xfer_done] (ready ok))).
Proof.
  apply (xfer_blocking_postcondition sim_is_error (rc := ok)
           (with_irqs [ev_xfer_done] (ready ok)) (s' := served_blocking)).
  reflexivity.
Defined.

(** A blocking transfer and [unlock()] bring the bus back to [idle], up
    to the [xfer_served] flag. *)
Lemma blocking_cycle_cleans_up_witness :
  m_bus (dev idle_served)
  = Bus_reset_buffers
      (snd (Bus_do_xfer (m_bus (dev (with_irqs [ev_xfer_done] (ready ok))))))
  /\ m_handler (dev idle_served) = None
  /\ flag_test (m_state (dev idle_served)) bus_locked = false
  /\ m_lock (dev idle_served) = false.
Proof.
  apply (blocking_cycle_cleans_up sim_is_error
           (with_irqs [ev_xfer_done] (ready ok)) (s' := idle_served)).
  reflexivity.
Defined.

(** [lock()] called again before the terminal event of handler 11. *)
Lemma lock_overtakes_terminal_event_witness :
  (unlock ;; lock) (with_irqs [ev_xfer_done] outstanding)
  = Ret tt outstanding_served_unsignalled.
Proof.
  exact (lock_overtakes_terminal_event (h := 11%nat) (rest := [])
           (with_irqs [ev_xfer_done] outstanding)
           eq_refl eq_refl eq_refl eq_refl eq_refl eq_refl eq_refl).
Defined.

(** [lock()] and [unlock()] on an idle bus change nothing. *)
Lemma lock_unlock_round_trip_witness :
  exists s',
    (lock ;; unlock) idle = Ret tt s'
    /\ m_bus (dev s') = Bus_reset_buffers (m_bus (dev idle))
    /\ m_handler (dev s') = None
    /\ m_lock (dev s') = false
    /\ flag_test (m_state (dev s')) bus_locked = false
    /\ flag_test (m_state (dev s')) bus_inited = true
    /\ flag_test (m_state (dev s')) async_mode = false
    /\ flag_test (m_state (dev s')) xfer_served
       = flag_test (m_state (dev idle)) xfer_served
    /\ m_complete (dev s') = m_complete (dev idle)
    /\ m_cleaned (dev s') = m_cleaned (dev idle)
    /\ irqs s' = irqs idle
    /\ invoked s' = invoked idle.
Proof.
  apply (lock_unlock_round_trip idle); reflexivity.
Defined.

(** With a transfer outstanding the mutex is held. *)
Lemma lock_flag_implies_mutex_witness :
  m_lock (dev outstanding) = true.
Proof.
  apply (lock_flag_implies_mutex sim_is_ok sim_is_error
           [c_init; c_lock; c_set_buffers (Some 4096%N) (Some 8192%N) 2;
            c_xfer_async (Some 11%nat)]
           fresh).
  - vm_compute. reflexivity.
  - intros Hl. vm_compute in Hl. discriminate Hl.
  - reflexivity.
Defined.

(** Setting or clearing [bus_locked] in the byte 7 does not change the
    test of [xfer_served]. *)
Lemma status_flags_independent_witness :
  flag_test (flag_set 7 bus_locked) xfer_served
  = flag_test 7 xfer_served || (bus_locked =? xfer_served)
  /\ flag_test (flag_clear 7 bus_locked) xfer_served
     = flag_test 7 xfer_served && negb (bus_locked =? xfer_served).
Proof.
  apply (status_flags_independent 7 (f := bus_locked) (g := xfer_served)).
  - simpl. right. right. left. reflexivity.
  - simpl. right. right. right. left. reflexivity.
Defined.

(** [C3] Event-driven [xfer(handler)] clears [xfer_served] only after
    [do_xfer] has returned, where blocking [xfer()] clears it before the
    call.  After a completed blocking transfer the flag is therefore
    still set when [do_xfer] is called, and a terminal event served
    before [do_xfer] returns stops on the assertion of [bus_handler].
    On a bus whose flag was clear the same event is served, handler 11
    is called and the semaphore signalled, and then [xfer(handler)]
    erases the mark: the transfer is left outstanding for ever.  Blocking
    [xfer()] takes the same event at the same moment as it should and
    returns with [xfer_served] set. *)
Theorem xfer_async_clears_served_too_late :
  xfer_async_prepare (Some 11%nat) served_blocking = Ret None served_then_async
  /\ flag_test (m_state (dev served_then_async)) xfer_served = true
  /\ xfer_async_during sim_is_error (Some 11%nat) [ev_xfer_done]
       served_blocking
     = Fault assert_failed
  /\ xfer_async_during sim_is_error (Some 11%nat) [ev_xfer_done] (ready ok)
     = Ret ok issued_and_forgotten
  /\ invoked issued_and_forgotten = [(11%nat, ev_xfer_done)]
  /\ flag_test (m_state (dev issued_and_forgotten)) xfer_served = false
  /\ xfer_during sim_is_error [ev_xfer_done] served_blocking
     = Ret ok served_blocking
  /\ xfer_during sim_is_error [ev_xfer_done] (ready ok)
     = Ret ok served_blocking
  /\ flag_test (m_state (dev served_blocking)) xfer_served = true.
Proof. vm_compute. repeat split. Qed.
